(** * HLogMonitor: the log-file monitor and its Kafka forwarder

    A shallow embedding of the two Go programs of the repository:
    - [Display]: the plain monitor ([monitor.go]), which prints the bytes
      appended to the watched file;
    - [Kafka]: the forwarding monitor (the Go program stored after the
      sample-log generator), which sends the appended bytes to a Kafka topic.

    The operating system, the clock and the Kafka client are oracles: every
    poll tick receives a record with the answers those collaborators give
    during that tick.  Everything the programs do with their answers
    (system calls issued, lines printed or logged, messages handed to the
    producer) is written to a trace of events. *)

From Stdlib Require Import ZArith String Ascii List Bool Lia.
From Stdlib Require Import Strings.Byte DecimalString.
From Stdlib Require DecimalZ.
Import ListNotations.

Open Scope Z_scope.

(** ** Go data *)

(** [int64] values are integers of [Z]; arithmetic on them wraps around. *)
Definition int64_min : Z := - 2 ^ 63.
Definition int64_max : Z := 2 ^ 63 - 1.

Definition in_int64 (z : Z) : Prop := int64_min <= z <= int64_max.

Definition wrap64 (z : Z) : Z := (z + 2 ^ 63) mod 2 ^ 64 - 2 ^ 63.

Definition sub64 (a b : Z) : Z := wrap64 (a - b).

(** [time.Time] as the number of nanoseconds elapsed since Go's zero time
    (January 1 of year 1, UTC); an instant before it is negative. *)
Definition Time : Type := Z.

(** [time.Time{}] *)
Definition zeroTime : Time := 0.

(** [t.After(u)] *)
Definition After (t u : Time) : bool := u <? t.

(** A Go [string] or [[]byte] holding file content is a sequence of bytes;
    the conversions [string(b)] and [[]byte(s)] keep the bytes as they are. *)
Definition bytes : Type := list byte.

Definition zero_byte : byte := x00.

(** [s != ""] on a string of bytes. *)
Definition nonempty (s : bytes) : bool :=
  match s with
  | [] => false
  | _ :: _ => true
  end.

(** [fmt.Sprintf("%d", z)] *)
Definition sprint_d (z : Z) : string := NilZero.string_of_int (Z.to_int z).

(** ** What one poll tick observes of its collaborators *)

(** How the kernel answers [file.Read]: with an I/O error, or by handing
    back at most [k] bytes in that one call. *)
Inductive ReadBehaviour : Type :=
| ReadError
| ReadAtMost (k : positive).

Record TickEnv : Type := {
  (** [os.Stat]: [None] when it fails, else the size and modification time *)
  env_stat : option (Z * Time);
  (** [os.Open]: [None] when it fails, else the content of the file *)
  env_open : option bytes;
  (** does [lseek] to a non-negative offset succeed *)
  env_seek_ok : bool;
  env_read : ReadBehaviour;
  (** [time.Now()] of the line printed for the tick *)
  env_now : Time;
  (** [time.Now()] of the message key and of the message timestamp *)
  env_now_key : Time;
  env_now_stamp : Time;
  (** does [producer.Produce] accept the message *)
  env_produce_ok : bool
}.

(** ** Kafka data *)

(** [kafka.PartitionAny] *)
Definition PartitionAny : Z := -1.

Record Message : Type := {
  msg_topic : string;
  msg_partition : Z;
  msg_value : bytes;
  msg_key : string;
  msg_timestamp : Time
}.

(** ** Events *)

Inductive Warning : Type :=
| WarnFileInfo        (* "Warning: Failed to get file info: ..." *)
| WarnOpen            (* "Warning: Failed to open file: ..." *)
| WarnSeek            (* "Warning: Failed to seek in file: ..." *)
| WarnRead            (* "Warning: Failed to read new content: ..." *)
| WarnSend.           (* "Failed to send message to Kafka: ..." *)

Inductive Line : Type :=
| PrStartMonitor (path : string)   (* "Starting to monitor HDFS log file: ..." *)
| PrInterval (seconds : Z)         (* "Checking for updates every ... seconds" *)
| PrTopic (topic : string)         (* "Sending log updates to Kafka topic: ..." *)
| PrInitial (size : Z) (mtime : Time)
| PrFileUpdated (now : Time) (bytesAdded currentSize : Z)
| PrModifiedUnchanged (now : Time) (currentSize : Z)
| PrNewContent (content : bytes)   (* the three lines around the new content *)
| PrLoadedBroker (broker : string)
| PrConfiguring (broker : string).

Inductive Event : Type :=
| SysStat
| SysOpen
| SysSeek (offset : Z)
(** one [read] call: bytes requested, and bytes obtained unless it failed *)
| SysRead (requested : Z) (obtained : option Z)
| SysClose
| Log (w : Warning)
| Print (l : Line)
| Produce (m : Message).

Definition Trace : Type := list Event.

(** ** Computations: a result or an abort, with the events so far *)

Inductive Abort : Type :=
| PanicMakeslice                   (* makeslice: len out of range *)
| PanicNewTicker                   (* non-positive interval for NewTicker *)
| Fatal (why : string).            (* log.Fatal: the process exits *)

Inductive Res (A : Type) : Type :=
| Ok (a : A)
| Stop (why : Abort).

Arguments Ok {A} a.
Arguments Stop {A} why.

Definition IO (A : Type) : Type := (Res A * Trace)%type.

Definition ret {A} (a : A) : IO A := (Ok a, []).

Definition bind {A B} (m : IO A) (f : A -> IO B) : IO B :=
  match m with
  | (Ok a, t) => let (r, t') := f a in (r, t ++ t')
  | (Stop why, t) => (Stop why, t)
  end.

Definition emit (e : Event) : IO unit := (Ok tt, [e]).

Definition abort {A} (why : Abort) : IO A := (Stop why, []).

(** [defer f()]: the events of [f] follow the body, whether it returns or
    panics. *)
Definition defer {A} (final : Trace) (m : IO A) : IO A :=
  (fst m, snd m ++ final).

Declare Scope io_scope.
Delimit Scope io_scope with io.
Notation "x <- m ;; k" := (bind m (fun x => k))
  (at level 61, m at next level, right associativity) : io_scope.
Notation "' pat <- m ;; k" := (bind m (fun x => match x with pat => k end))
  (at level 61, pat pattern, m at next level, right associativity) : io_scope.
Notation "m ;; k" := (bind m (fun _ => k))
  (at level 61, right associativity) : io_scope.
Open Scope io_scope.

Definition result {A} (m : IO A) : Res A := fst m.
Definition trace {A} (m : IO A) : Trace := snd m.

(** What a trace holds. *)
Definition produced (t : Trace) : list Message :=
  flat_map (fun e => match e with Produce m => [m] | _ => [] end) t.

Definition reads (t : Trace) : list (Z * option Z) :=
  flat_map (fun e => match e with SysRead n r => [(n, r)] | _ => [] end) t.

Definition warnings (t : Trace) : list Warning :=
  flat_map (fun e => match e with Log w => [w] | _ => [] end) t.

Definition printed (t : Trace) : list Line :=
  flat_map (fun e => match e with Print l => [l] | _ => [] end) t.

(** ** The file operations shared by the two monitors *)

(** The largest allocation the Go runtime accepts, its [maxAlloc]: 2^48
    bytes on 64-bit Linux, where [int] has the 64 bits this model gives it. *)
Definition maxAlloc : Z := 2 ^ 48.

(** [make([]byte, n)]: [n] zero bytes, and the run-time panic "makeslice:
    len out of range" when [n] is negative or above [maxAlloc]. *)
Definition make_bytes (n : Z) : IO bytes :=
  if (n <? 0) || (maxAlloc <? n) then abort PanicMakeslice
  else ret (repeat zero_byte (Z.to_nat n)).

(** [time.NewTicker(time.Duration(interval) * time.Second)]: the product
    wraps around as an [int64] of nanoseconds, and a duration that is not
    positive is a run-time panic. *)
Definition NewTicker (interval : Z) : IO unit :=
  if wrap64 (interval * 1000000000) <=? 0 then abort PanicNewTicker
  else ret tt.

(** [file.Seek(offset, 0)] *)
Definition seek_ok (e : TickEnv) (offset : Z) : bool :=
  (0 <=? offset) && env_seek_ok e.

(** [file.Read(buf)] on a file of content [content] positioned at [offset]:
    the number of bytes obtained and the buffer afterwards, or [None] for an
    error.  A call on an empty buffer obtains 0 bytes without an error; a
    call that obtains nothing otherwise reports [io.EOF]. *)
Definition file_read (e : TickEnv) (content : bytes) (offset : Z) (buf : bytes)
  : option (nat * bytes) :=
  match env_read e with
  | ReadError => None
  | ReadAtMost k =>
      let avail := skipn (Z.to_nat offset) content in
      let n := Nat.min (length buf) (Nat.min (Pos.to_nat k) (length avail)) in
      match buf with
      | [] => Some (O, buf)
      | _ :: _ =>
          match n with
          | O => None
          | S _ => Some (n, firstn n avail ++ skipn n buf)
          end
      end
  end.

(** [getFileInfo], the same function in both programs: the size and
    modification time of the file, and [(0, time.Time{})] with a warning
    when [os.Stat] fails. *)
Definition getFileInfo (e : TickEnv) : IO (Z * Time) :=
  emit SysStat ;;
  match env_stat e with
  | None => emit (Log WarnFileInfo) ;; ret (0, zeroTime)
  | Some (size, mtime) => ret (size, mtime)
  end.

(** ** The monitors' state and start-up *)

(** The two variables the loop carries from tick to tick. *)
Record State : Type := {
  lastSize : Z;
  lastModTime : Time
}.

(** What [encoding/json] finds in the configuration file, key by key:
    [None] for a key the document does not set.  [json.Unmarshal] leaves
    Go's zero value in the field of such a key. *)
Record Document : Type := {
  doc_broker : option string;
  doc_topic : option string;
  doc_client_id : option string;
  doc_max_retry : option Z;
  doc_retry_backoff_ms : option Z;
  doc_timeout_ms : option Z
}.

Inductive ConfigFile : Type :=
| CfgOpenFails                     (* os.Open fails *)
| CfgReadFails                     (* io.ReadAll fails *)
| CfgMalformed                     (* json.Unmarshal fails *)
| CfgDocument (d : Document).

Record StartEnv : Type := {
  (** the flags [-file], [-interval]  and [-config] *)
  flag_file : string;
  flag_interval : Z;
  flag_config : string;
  (** [filepath.Abs]: [None] when it fails *)
  start_abs : option string;
  (** does the first [os.Stat] report that the file does not exist *)
  start_not_exist : bool;
  start_config : ConfigFile;
  (** does [kafka.NewProducer] succeed *)
  start_producer_ok : bool;
  (** the collaborators during the initial observation *)
  start_observe : TickEnv
}.

(** ** The plain monitor *)

Module Display.

(** [displayNewContent]: open, seek to [oldSize], one [Read] into a buffer
    of [newSize - oldSize] bytes, print the buffer. *)
Definition displayNewContent (e : TickEnv) (oldSize newSize : Z) : IO unit :=
  emit SysOpen ;;
  match env_open e with
  | None => emit (Log WarnOpen) ;; ret tt
  | Some content =>
      defer [SysClose]
        (emit (SysSeek oldSize) ;;
         if seek_ok e oldSize then
           newContent <- make_bytes (sub64 newSize oldSize) ;;
           let r := file_read e content oldSize newContent in
           emit (SysRead (Z.of_nat (length newContent))
                         (option_map (fun p => Z.of_nat (fst p)) r)) ;;
           match r with
           | None => emit (Log WarnRead) ;; ret tt
           | Some (_, filled) => emit (Print (PrNewContent filled)) ;; ret tt
           end
         else emit (Log WarnSeek) ;; ret tt)
  end.

(** One iteration of the monitor loop. *)
Definition tick (st : State) (e : TickEnv) : IO State :=
  '(currentSize, currentModTime) <- getFileInfo e ;;
  if lastSize st <? currentSize then
    let bytesAdded := sub64 currentSize (lastSize st) in
    emit (Print (PrFileUpdated (env_now e) bytesAdded currentSize)) ;;
    displayNewContent e (lastSize st) currentSize ;;
    ret {| lastSize := currentSize; lastModTime := currentModTime |}
  else if After currentModTime (lastModTime st) then
    emit (Print (PrModifiedUnchanged (env_now e) currentSize)) ;;
    ret {| lastSize := lastSize st; lastModTime := currentModTime |}
  else ret st.

(** The loop over the ticks of the ticker that have fired so far. *)
Fixpoint run (st : State) (es : list TickEnv) : IO State :=
  match es with
  | [] => ret st
  | e :: es' => st' <- tick st e ;; run st' es'
  end.

(** The initial observation, before the loop. *)
Definition initial (e0 : TickEnv) : IO State :=
  '(size, mtime) <- getFileInfo e0 ;;
  emit (Print (PrInitial size mtime)) ;;
  ret {| lastSize := size; lastModTime := mtime |}.

(** [main] up to the loop: flags, path checks, initial observation. *)
Definition start (s : StartEnv) : IO State :=
  if (flag_file s =? "")%string then
    abort (Fatal "Please provide a log file path using the -file flag")
  else
    match start_abs s with
    | None => abort (Fatal "Failed to resolve absolute path")
    | Some absPath =>
        if start_not_exist s then abort (Fatal "Log file does not exist")
        else
          emit (Print (PrStartMonitor absPath)) ;;
          emit (Print (PrInterval (flag_interval s))) ;;
          initial (start_observe s)
    end.

(** [main]: start-up, the ticker, the loop. *)
Definition main (s : StartEnv) (es : list TickEnv) : IO State :=
  st <- start s ;;
  NewTicker (flag_interval s) ;;
  run st es.

End Display.

(** ** The forwarding monitor *)

Module Kafka.

(** [KafkaConfig] *)
Record KafkaConfig : Type := {
  Broker : string;
  Topic : string;
  ClientID : string;
  MaxRetry : Z;
  RetryBackoff : Z;
  TimeoutMS : Z
}.

Definition set_Topic (c : KafkaConfig) (v : string) : KafkaConfig :=
  {| Broker := Broker c; Topic := v; ClientID := ClientID c;
     MaxRetry := MaxRetry c; RetryBackoff := RetryBackoff c;
     TimeoutMS := TimeoutMS c |}.

Definition set_ClientID (c : KafkaConfig) (v : string) : KafkaConfig :=
  {| Broker := Broker c; Topic := Topic c; ClientID := v;
     MaxRetry := MaxRetry c; RetryBackoff := RetryBackoff c;
     TimeoutMS := TimeoutMS c |}.

Definition set_MaxRetry (c : KafkaConfig) (v : Z) : KafkaConfig :=
  {| Broker := Broker c; Topic := Topic c; ClientID := ClientID c;
     MaxRetry := v; RetryBackoff := RetryBackoff c;
     TimeoutMS := TimeoutMS c |}.

Definition set_RetryBackoff (c : KafkaConfig) (v : Z) : KafkaConfig :=
  {| Broker := Broker c; Topic := Topic c; ClientID := ClientID c;
     MaxRetry := MaxRetry c; RetryBackoff := v;
     TimeoutMS := TimeoutMS c |}.

Definition set_TimeoutMS (c : KafkaConfig) (v : Z) : KafkaConfig :=
  {| Broker := Broker c; Topic := Topic c; ClientID := ClientID c;
     MaxRetry := MaxRetry c; RetryBackoff := RetryBackoff c;
     TimeoutMS := v |}.

(** [json.Unmarshal(configBytes, &config)] into a zero [KafkaConfig]. *)
Definition unmarshal (d : Document) : KafkaConfig :=
  {| Broker := match doc_broker d with Some v => v | None => "" end;
     Topic := match doc_topic d with Some v => v | None => "" end;
     ClientID := match doc_client_id d with Some v => v | None => "" end;
     MaxRetry := match doc_max_retry d with Some v => v | None => 0 end;
     RetryBackoff :=
       match doc_retry_backoff_ms d with Some v => v | None => 0 end;
     TimeoutMS := match doc_timeout_ms d with Some v => v | None => 0 end |}.

Inductive LoadError : Type :=
| FailedOpenConfig               (* "failed to open config file: ..." *)
| FailedReadConfig               (* "failed to read config file: ..." *)
| FailedParseConfig.             (* "failed to parse config file: ..." *)

(** [loadKafkaConfig] *)
Definition loadKafkaConfig (cf : ConfigFile) : IO (KafkaConfig + LoadError) :=
  match cf with
  | CfgOpenFails => ret (inr FailedOpenConfig)
  | CfgReadFails => ret (inr FailedReadConfig)
  | CfgMalformed => ret (inr FailedParseConfig)
  | CfgDocument d =>
      let config := unmarshal d in
      let config :=
        if (Topic config =? "")%string
        then set_Topic config "hdfslog" else config in
      let config :=
        if (ClientID config =? "")%string
        then set_ClientID config "hdfs-log-monitor" else config in
      let config :=
        if MaxRetry config =? 0 then set_MaxRetry config 3 else config in
      let config :=
        if RetryBackoff config =? 0
        then set_RetryBackoff config 100 else config in
      let config :=
        if TimeoutMS config =? 0 then set_TimeoutMS config 5000 else config in
      emit (Print (PrLoadedBroker (Broker config))) ;;
      ret (inl config)
  end.

(** [kafka.ConfigValue] and [kafka.ConfigMap], the latter as the list of
    the entries of the map literal. *)
Inductive ConfigValue : Type :=
| CVString (s : string)
| CVInt (z : Z).

Definition ConfigMap : Type := list (string * ConfigValue).

Fixpoint cm_get (m : ConfigMap) (key : string) : option ConfigValue :=
  match m with
  | [] => None
  | (k, v) :: m' => if (k =? key)%string then Some v else cm_get m' key
  end.

(** A [kafka.Producer], known by the configuration it was built from. *)
Record Producer : Type := {
  producer_config : ConfigMap
}.

(** [createKafkaProducer]; [None] when [kafka.NewProducer] fails. *)
Definition createKafkaProducer (new_ok : bool) (config : KafkaConfig)
  : IO (option Producer) :=
  let kafkaConfig : ConfigMap :=
    [ ("bootstrap.servers"%string, CVString "192.168.100.98:9092");
      ("client.id"%string, CVString (ClientID config));
      ("retries"%string, CVInt (MaxRetry config));
      ("retry.backoff.ms"%string, CVInt (RetryBackoff config));
      ("socket.timeout.ms"%string, CVInt (TimeoutMS config));
      ("acks"%string, CVString "1") ] in
  emit (Print (PrConfiguring (Broker config))) ;;
  if new_ok then ret (Some {| producer_config := kafkaConfig |})
  else ret None.

(** The address the producer connects to. *)
Definition broker_of (p : Producer) : option ConfigValue :=
  cm_get (producer_config p) "bootstrap.servers".

(** Nanoseconds between Go's zero time and the Unix epoch. *)
Definition unix_epoch : Time := 62135596800 * 1000000000.

(** [t.UnixNano()] *)
Definition UnixNano (t : Time) : Z := wrap64 (t - unix_epoch).

(** [sendToKafka] *)
Definition sendToKafka (e : TickEnv) (producer : Producer) (topic : string)
  (message : bytes) : IO unit :=
  let msg :=
    {| msg_topic := topic;
       msg_partition := PartitionAny;
       msg_value := message;
       msg_key := ("hdfs-log-" ++ sprint_d (UnixNano (env_now_key e)))%string;
       msg_timestamp := env_now_stamp e |} in
  emit (Produce msg) ;;
  if env_produce_ok e then ret tt else emit (Log WarnSend) ;; ret tt.

(** [readNewContent]: open, seek to [oldSize], one [Read] into a buffer of
    [newSize - oldSize] bytes; the whole buffer is returned, and the empty
    string after a warning. *)
Definition readNewContent (e : TickEnv) (oldSize newSize : Z) : IO bytes :=
  emit SysOpen ;;
  match env_open e with
  | None => emit (Log WarnOpen) ;; ret []
  | Some content =>
      defer [SysClose]
        (emit (SysSeek oldSize) ;;
         if seek_ok e oldSize then
           newContent <- make_bytes (sub64 newSize oldSize) ;;
           let r := file_read e content oldSize newContent in
           emit (SysRead (Z.of_nat (length newContent))
                         (option_map (fun p => Z.of_nat (fst p)) r)) ;;
           match r with
           | None => emit (Log WarnRead) ;; ret []
           | Some (_, filled) =>
               emit (Print (PrNewContent filled)) ;; ret filled
           end
         else emit (Log WarnSeek) ;; ret [])
  end.

(** One iteration of the monitor loop. *)
Definition tick (producer : Producer) (topic : string) (st : State)
  (e : TickEnv) : IO State :=
  '(currentSize, currentModTime) <- getFileInfo e ;;
  if lastSize st <? currentSize then
    let bytesAdded := sub64 currentSize (lastSize st) in
    emit (Print (PrFileUpdated (env_now e) bytesAdded currentSize)) ;;
    newContent <- readNewContent e (lastSize st) currentSize ;;
    (if nonempty newContent
     then sendToKafka e producer topic newContent
     else ret tt) ;;
    ret {| lastSize := currentSize; lastModTime := currentModTime |}
  else if After currentModTime (lastModTime st) then
    emit (Print (PrModifiedUnchanged (env_now e) currentSize)) ;;
    ret {| lastSize := lastSize st; lastModTime := currentModTime |}
  else ret st.

Fixpoint run (producer : Producer) (topic : string) (st : State)
  (es : list TickEnv) : IO State :=
  match es with
  | [] => ret st
  | e :: es' => st' <- tick producer topic st e ;; run producer topic st' es'
  end.

(** The initial observation, before the loop. *)
Definition initial (e0 : TickEnv) : IO State :=
  '(size, mtime) <- getFileInfo e0 ;;
  emit (Print (PrInitial size mtime)) ;;
  ret {| lastSize := size; lastModTime := mtime |}.

(** [main] up to the loop: flags, path checks, configuration, producer,
    initial observation. *)
Definition start (s : StartEnv) : IO (KafkaConfig * Producer * State) :=
  if (flag_file s =? "")%string then
    abort (Fatal "Please provide a log file path using the -file flag")
  else
    match start_abs s with
    | None => abort (Fatal "Failed to resolve absolute path")
    | Some absPath =>
        if start_not_exist s then abort (Fatal "Log file does not exist")
        else
          loaded <- loadKafkaConfig (start_config s) ;;
          match loaded with
          | inr _ => abort (Fatal "Failed to load Kafka configuration")
          | inl kafkaConfig =>
              made <- createKafkaProducer (start_producer_ok s) kafkaConfig ;;
              match made with
              | None => abort (Fatal "Failed to create Kafka producer")
              | Some producer =>
                  emit (Print (PrStartMonitor absPath)) ;;
                  emit (Print (PrInterval (flag_interval s))) ;;
                  emit (Print (PrTopic (Topic kafkaConfig))) ;;
                  st <- initial (start_observe s) ;;
                  ret (kafkaConfig, producer, st)
              end
          end
    end.

(** [main]: start-up, the ticker, the loop. *)
Definition main (s : StartEnv) (es : list TickEnv) : IO State :=
  '(kafkaConfig, producer, st) <- start s ;;
  NewTicker (flag_interval s) ;;
  run producer (Topic kafkaConfig) st es.

End Kafka.

(** ** Notions the statements below use *)

(** What [getFileInfo] hands to the loop: the file's size and modification
    time, and [(0, time.Time{})] when [os.Stat] failed. *)
Definition observation (e : TickEnv) : Z * Time :=
  match result (getFileInfo e) with
  | Ok p => p
  | Stop _ => (0, zeroTime)
  end.

(** The warnings of a delta read that failed. *)
Definition read_warning (w : Warning) : bool :=
  match w with
  | WarnOpen | WarnSeek | WarnRead => true
  | WarnFileInfo | WarnSend => false
  end.


(** The bytes the [read] calls of a trace obtained, all calls together. *)
Definition bytes_obtained (t : Trace) : Z :=
  fold_right
    (fun r acc => match snd r with Some n => n + acc | None => acc end)
    0 (reads t).

(** The events of extracting or forwarding a delta: opening or reading the
    file, printing new content, handing a message to the producer. *)
Definition delta_event (ev : Event) : bool :=
  match ev with
  | SysOpen | SysSeek _ | SysRead _ _ | SysClose => true
  | Print (PrNewContent _) | Print (PrFileUpdated _ _ _) => true
  | Produce _ => true
  | _ => false
  end.

(** The events of a tick that finds no growth: the [stat] call, its warning
    if it failed, and the report of a newer modification time if any. *)
Definition no_growth_state (st : State) (e : TickEnv) : State :=
  if After (snd (observation e)) (lastModTime st)
  then {| lastSize := lastSize st; lastModTime := snd (observation e) |}
  else st.

Definition no_growth_trace (st : State) (e : TickEnv) : Trace :=
  (SysStat :: match env_stat e with None => [Log WarnFileInfo] | Some _ => [] end)
  ++ (if After (snd (observation e)) (lastModTime st)
      then [Print (PrModifiedUnchanged (env_now e) (fst (observation e)))]
      else []).

(** The events of handing a delta to the producer, or of skipping an empty
    one. *)
Definition send_trace (e : TickEnv) (p : Kafka.Producer) (topic : string)
  (newContent : bytes) : Trace :=
  trace (if nonempty newContent
         then Kafka.sendToKafka e p topic newContent
         else ret tt).

(** ** Sample runs *)

Definition sample_producer : Kafka.Producer :=
  {| Kafka.producer_config := [] |}.

(** A quiet tick: the file has 9 bytes, as it had before. *)
Definition env_same : TickEnv :=
  {| env_stat := Some (9, 40); env_open := Some (repeat "a"%byte 9);
     env_seek_ok := true; env_read := ReadAtMost 4096;
     env_now := 1000; env_now_key := 1001; env_now_stamp := 1002;
     env_produce_ok := true |}.

(** A tick whose [os.Stat] fails. *)
Definition env_stat_fails : TickEnv :=
  {| env_stat := None; env_open := None;
     env_seek_ok := true; env_read := ReadAtMost 4096;
     env_now := 2000; env_now_key := 2001; env_now_stamp := 2002;
     env_produce_ok := true |}.

(** A tick that finds the 9-byte file touched: same size, newer time. *)
Definition env_touched : TickEnv :=
  {| env_stat := Some (9, 50); env_open := Some (repeat "a"%byte 9);
     env_seek_ok := true; env_read := ReadAtMost 4096;
     env_now := 3000; env_now_key := 3001; env_now_stamp := 3002;
     env_produce_ok := true |}.

(** A tick that finds the file truncated to 3 bytes. *)
Definition env_shrunk : TickEnv :=
  {| env_stat := Some (3, 60); env_open := Some (repeat "a"%byte 3);
     env_seek_ok := true; env_read := ReadAtMost 4096;
     env_now := 4000; env_now_key := 4001; env_now_stamp := 4002;
     env_produce_ok := true |}.

Definition state_9 : State := {| lastSize := 9; lastModTime := 40 |}.

Definition sample_document : Document :=
  {| doc_broker := Some "localhost:9092"%string; doc_topic := None;
     doc_client_id := None; doc_max_retry := None;
     doc_retry_backoff_ms := None; doc_timeout_ms := None |}.

Definition sample_start : StartEnv :=
  {| flag_file := "hdfs.log"; flag_interval := 5;
     flag_config := "kafka_config.json";
     start_abs := Some "/var/log/hdfs.log"%string;
     start_not_exist := false;
     start_config := CfgDocument sample_document;
     start_producer_ok := true;
     start_observe := env_same |}.

Definition sample_config : Kafka.KafkaConfig :=
  {| Kafka.Broker := "localhost:9092"; Kafka.Topic := "hdfslog";
     Kafka.ClientID := "hdfs-log-monitor"; Kafka.MaxRetry := 3;
     Kafka.RetryBackoff := 100; Kafka.TimeoutMS := 5000 |}.

(** The producer [sample_start] builds. *)
Definition started_producer : Kafka.Producer :=
  {| Kafka.producer_config :=
       [ ("bootstrap.servers"%string, Kafka.CVString "192.168.100.98:9092");
         ("client.id"%string, Kafka.CVString "hdfs-log-monitor");
         ("retries"%string, Kafka.CVInt 3);
         ("retry.backoff.ms"%string, Kafka.CVInt 100);
         ("socket.timeout.ms"%string, Kafka.CVInt 5000);
         ("acks"%string, Kafka.CVString "1") ] |}.

Definition state_touched : State := {| lastSize := 9; lastModTime := 50 |}.

Definition state_empty : State := {| lastSize := 0; lastModTime := 0 |}.

(** A log line of 74 bytes, the newline included. *)
Definition sample_line : bytes :=
  list_byte_of_string
    "2025-03-16 08:00:15,234 INFO dfs.NameNode: STARTUP_MSG: Starting NameNode"
  ++ ["010"%byte].

(** A tick that finds the line appended to the empty file and reads it in
    one call. *)
Definition env_line : TickEnv :=
  {| env_stat := Some (74, 70); env_open := Some sample_line;
     env_seek_ok := true; env_read := ReadAtMost 4096;
     env_now := 5000; env_now_key := 5001; env_now_stamp := 5002;
     env_produce_ok := true |}.

Definition ten_digits : bytes := list_byte_of_string "0123456789".

(** A tick that finds 10 bytes appended, and whose [read] hands back 4. *)
Definition env_short : TickEnv :=
  {| env_stat := Some (10, 5); env_open := Some ten_digits;
     env_seek_ok := true; env_read := ReadAtMost 4;
     env_now := 6000; env_now_key := 6001; env_now_stamp := 6002;
     env_produce_ok := true |}.

(** A tick that finds 10 bytes appended, and whose [os.Open] fails. *)
Definition env_open_fails : TickEnv :=
  {| env_stat := Some (10, 5); env_open := None;
     env_seek_ok := true; env_read := ReadAtMost 4096;
     env_now := 7000; env_now_key := 7001; env_now_stamp := 7002;
     env_produce_ok := true |}.

(** The tick after it: the same 10 bytes, and the file can be read. *)
Definition env_readable : TickEnv :=
  {| env_stat := Some (10, 5); env_open := Some ten_digits;
     env_seek_ok := true; env_read := ReadAtMost 4096;
     env_now := 8000; env_now_key := 8001; env_now_stamp := 8002;
     env_produce_ok := true |}.

Definition state_10 : State := {| lastSize := 10; lastModTime := 5 |}.

(** ** Further notions: the loop as a whole *)

(** The size a tick observes is an [int64]. *)
Definition size_fits (e : TickEnv) : bool :=
  fst (observation e) <=? int64_max.

(** The size a tick observes is one [make] accepts as a length. *)
Definition size_allocates (e : TickEnv) : bool :=
  fst (observation e) <=? maxAlloc.

(** The message [sendToKafka] builds for a delta. *)
Definition message_of (e : TickEnv) (topic : string) (value : bytes) : Message :=
  {| msg_topic := topic;
     msg_partition := PartitionAny;
     msg_value := value;
     msg_key := ("hdfs-log-" ++ sprint_d (Kafka.UnixNano (env_now_key e)))%string;
     msg_timestamp := env_now_stamp e |}.

(** A trace without the events of the hand-over to the producer. *)
Definition is_send (ev : Event) : bool :=
  match ev with
  | Produce _ | Log WarnSend => true
  | _ => false
  end.

Definition strip_sends (t : Trace) : Trace :=
  filter (fun ev => negb (is_send ev)) t.

(** How often a trace opens and closes the file. *)
Definition opens (t : Trace) : nat :=
  length (filter (fun ev => match ev with SysOpen => true | _ => false end) t).

Definition closes (t : Trace) : nat :=
  length (filter (fun ev => match ev with SysClose => true | _ => false end) t).

(** Equality of byte sequences. *)
Fixpoint bytes_eqb (a b : bytes) : bool :=
  match a, b with
  | [], [] => true
  | x :: a', y :: b' => Byte.eqb x y && bytes_eqb a' b'
  | _, _ => false
  end.

(** A tick that finds [delta] appended to a file that held [content]:
    [os.Stat] reports the length of both together, the file as opened holds
    both, the seek succeeds, and the [read] hands back all the bytes of
    [delta] it is asked for. *)
Definition finds_appended (content delta : bytes) (e : TickEnv) : bool :=
  match env_stat e with
  | Some (size, _) => size =? Z.of_nat (length (content ++ delta))
  | None => false
  end
  && match env_open e with
     | Some c => bytes_eqb c (content ++ delta)
     | None => false
     end
  && env_seek_ok e
  && match env_read e with
     | ReadAtMost k => (length delta <=? Pos.to_nat k)%nat
     | ReadError => false
     end.

(** A tick that finds the whole file [content] as new: nothing of it was
    there before, and the [read] hands back all of it. *)
Definition sees_file (content : bytes) (e : TickEnv) : bool :=
  finds_appended [] content e.

(** A file that only grows: tick by tick, the bytes appended since the tick
    before (none, maybe; at most [maxAlloc], or [make] panics) and the tick
    that finds them. *)
Fixpoint append_only (content : bytes) (ticks : list (bytes * TickEnv)) : bool :=
  match ticks with
  | [] => true
  | (delta, e) :: rest =>
      (Z.of_nat (length delta) <=? maxAlloc)
      && finds_appended content delta e
      && append_only (content ++ delta) rest
  end.

(** Two ticks of a growing file: "0123" found first, then "456789". *)
Definition env_four : TickEnv :=
  {| env_stat := Some (4, 3); env_open := Some (list_byte_of_string "0123");
     env_seek_ok := true; env_read := ReadAtMost 4096;
     env_now := 9000; env_now_key := 9001; env_now_stamp := 9002;
     env_produce_ok := true |}.

(** A tick that reads the 10 bytes while the producer rejects messages. *)
Definition env_rejected : TickEnv :=
  {| env_stat := Some (10, 5); env_open := Some ten_digits;
     env_seek_ok := true; env_read := ReadAtMost 4096;
     env_now := 8000; env_now_key := 8001; env_now_stamp := 8002;
     env_produce_ok := false |}.

(** A tick that finds 10 bytes by [stat] and an empty file when it reads. *)
Definition env_vanished : TickEnv :=
  {| env_stat := Some (10, 5); env_open := Some [];
     env_seek_ok := true; env_read := ReadAtMost 4096;
     env_now := 8000; env_now_key := 8001; env_now_stamp := 8002;
     env_produce_ok := true |}.

(** A document that sets every tuning field to Go's zero value. *)
Definition zero_document : Document :=
  {| doc_broker := Some "localhost:9092"%string; doc_topic := Some ""%string;
     doc_client_id := Some ""%string; doc_max_retry := Some 0;
     doc_retry_backoff_ms := Some 0; doc_timeout_ms := Some 0 |}.

(** A document that sets the topic and the retries, and nothing else. *)
Definition partial_document : Document :=
  {| doc_broker := None; doc_topic := Some "logs"%string;
     doc_client_id := None; doc_max_retry := Some 7;
     doc_retry_backoff_ms := None; doc_timeout_ms := None |}.

Definition partial_config : Kafka.KafkaConfig :=
  {| Kafka.Broker := ""; Kafka.Topic := "logs";
     Kafka.ClientID := "hdfs-log-monitor"; Kafka.MaxRetry := 7;
     Kafka.RetryBackoff := 100; Kafka.TimeoutMS := 5000 |}.

(** ** The delivery report collector *)

(** The [kafka.TopicPartition] of a delivery report; [Topic] is a pointer
    and [Error] an interface, either may be nil. *)
Record TopicPartition : Type := {
  tp_topic : option string;
  tp_partition : Z;
  tp_offset : Z;
  tp_error : option string
}.

(** A [kafka.Event] on the delivery channel: a [*kafka.Message], or an
    event of another type. *)
Inductive KafkaEvent : Type :=
| EvMessage (tp : TopicPartition)
| EvOther.

Inductive ReportLine : Type :=
| FailedDelivery (err : string)    (* "Failed to deliver message to Kafka: ..." *)
| Delivered (topic : string) (partition offset : Z).
                                   (* "Successfully delivered message to topic ..." *)

(** How the collector has ended: the channel is drained, or the goroutine
    panicked on the nil topic of a report. *)
Inductive CollectorEnd : Type :=
| ChannelDrained
| NilTopicPanic.

(** [handleDeliveryReports] over the events the channel delivers, in order:
    the lines it logs and how it ends. *)
Fixpoint handleDeliveryReports (deliveryChan : list KafkaEvent)
  : list ReportLine * CollectorEnd :=
  match deliveryChan with
  | [] => ([], ChannelDrained)
  | EvMessage ev :: rest =>
      match tp_error ev with
      | Some err =>
          let (lines, ending) := handleDeliveryReports rest in
          (FailedDelivery err :: lines, ending)
      | None =>
          match tp_topic ev with
          | Some topic =>
              let (lines, ending) := handleDeliveryReports rest in
              (Delivered topic (tp_partition ev) (tp_offset ev) :: lines, ending)
          | None => ([], NilTopicPanic)
          end
      end
  | EvOther :: rest => handleDeliveryReports rest
  end.

(** A report the collector can print: it has an error or names its topic. *)
Definition printable (ev : KafkaEvent) : bool :=
  match ev with
  | EvMessage tp =>
      match tp_error tp, tp_topic tp with
      | None, None => false
      | _, _ => true
      end
  | EvOther => true
  end.

Definition is_message (ev : KafkaEvent) : bool :=
  match ev with
  | EvMessage _ => true
  | EvOther => false
  end.

Definition is_failure_line (l : ReportLine) : bool :=
  match l with
  | FailedDelivery _ => true
  | Delivered _ _ _ => false
  end.

Definition has_error (ev : KafkaEvent) : bool :=
  match ev with
  | EvMessage tp => match tp_error tp with Some _ => true | None => false end
  | EvOther => false
  end.

Definition report_ok : KafkaEvent :=
  EvMessage {| tp_topic := Some "hdfslog"%string; tp_partition := 0;
               tp_offset := 41; tp_error := None |}.

Definition report_failed : KafkaEvent :=
  EvMessage {| tp_topic := Some "hdfslog"%string; tp_partition := 0;
               tp_offset := -1; tp_error := Some "timed out"%string |}.

Definition report_without_topic : KafkaEvent :=
  EvMessage {| tp_topic := None; tp_partition := 0;
               tp_offset := 42; tp_error := None |}.

(** ** The sample-log generator script *)

Module Generator.

(** [$RANDOM] is an integer from 0 to 32767. *)
Definition is_random (r : Z) : bool := (0 <=? r) && (r <=? 32767).

Definition levels : list string := ["INFO"; "WARN"; "ERROR"; "DEBUG"]%string.

Definition components : list string :=
  ["namenode.NameNode"; "namenode.FSNamesystem"; "datanode.DataNode";
   "blockmanagement.BlockManager"]%string.

(** [${levels[$RANDOM % 4]}] and [${components[$RANDOM % 4]}]: the element
    at the index, the empty string where the array has none. *)
Definition level_of (random : Z) : string :=
  nth (Z.to_nat (Z.rem random 4)) levels ""%string.

Definition component_of (random : Z) : string :=
  nth (Z.to_nat (Z.rem random 4)) components ""%string.










End Generator.

(** Two hand-overs at the same nanosecond, in November 2023. *)
Definition env_clock_a : TickEnv :=
  {| env_stat := None; env_open := None; env_seek_ok := true;
     env_read := ReadError; env_now := 0;
     env_now_key := 62135596800 * 1000000000 + 1700000000000000000;
     env_now_stamp := 0; env_produce_ok := true |}.

Definition env_clock_b : TickEnv :=
  {| env_stat := None; env_open := None; env_seek_ok := true;
     env_read := ReadError; env_now := 0;
     env_now_key := 62135596800 * 1000000000 + 1700000000000000000;
     env_now_stamp := 5; env_produce_ok := false |}.

(** The offsets a trace seeks to, in order. *)
Definition seeks (t : Trace) : list Z :=
  flat_map (fun ev => match ev with SysSeek o => [o] | _ => [] end) t.

(** Offsets that start at or after [lo] and strictly increase. *)
Fixpoint increasing_from (lo : Z) (offsets : list Z) : bool :=
  match offsets with
  | [] => true
  | o :: rest => (lo <=? o) && increasing_from (o + 1) rest
  end.

(** ** Notions of the corrected statements *)



(** A 9-byte file last modified one second before Go's zero time. *)
Definition env_ancient : TickEnv :=
  {| env_stat := Some (9, -1000000000);
     env_open := Some (repeat "a"%byte 9);
     env_seek_ok := true; env_read := ReadAtMost 4096;
     env_now := 1000; env_now_key := 1001; env_now_stamp := 1002;
     env_produce_ok := true |}.

Definition start_ancient : StartEnv :=
  {| flag_file := "hdfs.log"; flag_interval := 5;
     flag_config := "kafka_config.json";
     start_abs := Some "/var/log/hdfs.log"%string;
     start_not_exist := false;
     start_config := CfgDocument sample_document;
     start_producer_ok := true;
     start_observe := env_ancient |}.

Definition state_ancient : State :=
  {| lastSize := 9; lastModTime := -1000000000 |}.

(** A start-up like [sample_start] with [-interval 0]. *)
Definition start_no_interval : StartEnv :=
  {| flag_file := "hdfs.log"; flag_interval := 0;
     flag_config := "kafka_config.json";
     start_abs := Some "/var/log/hdfs.log"%string;
     start_not_exist := false;
     start_config := CfgDocument sample_document;
     start_producer_ok := true;
     start_observe := env_same |}.

(** A tick that finds the 10 bytes and whose [read] hands back at most 6,
    fewer than the file holds and all that was appended after "0123". *)
Definition env_six_more : TickEnv :=
  {| env_stat := Some (10, 5); env_open := Some ten_digits;
     env_seek_ok := true; env_read := ReadAtMost 6;
     env_now := 8000; env_now_key := 8001; env_now_stamp := 8002;
     env_produce_ok := true |}.

(** A tick that finds the file grown to 2^60 bytes. *)
Definition env_huge : TickEnv :=
  {| env_stat := Some (2 ^ 60, 5); env_open := Some ten_digits;
     env_seek_ok := true; env_read := ReadAtMost 4096;
     env_now := 8000; env_now_key := 8001; env_now_stamp := 8002;
     env_produce_ok := true |}.

(** * Properties *)

(** ** The monad and the shared file operations *)

Lemma getFileInfo_eq (e : TickEnv) :
  getFileInfo e =
  (Ok (observation e),
   SysStat :: match env_stat e with None => [Log WarnFileInfo] | Some _ => [] end).
Proof.
  unfold observation, getFileInfo, result.
  destruct (env_stat e) as [[size mtime]|]; reflexivity.
Qed.

Lemma observation_stat (e : TickEnv) (size : Z) (mtime : Time) :
  env_stat e = Some (size, mtime) -> observation e = (size, mtime).
Proof.
  intros H. unfold observation, getFileInfo. rewrite H. reflexivity.
Qed.

Lemma observation_stat_fails (e : TickEnv) :
  env_stat e = None -> observation e = (0, zeroTime).
Proof.
  intros H. unfold observation, getFileInfo. rewrite H. reflexivity.
Qed.

Lemma produced_app (t u : Trace) : produced (t ++ u) = produced t ++ produced u.
Proof. unfold produced. apply flat_map_app. Qed.

Lemma reads_app (t u : Trace) : reads (t ++ u) = reads t ++ reads u.
Proof. unfold reads. apply flat_map_app. Qed.


Lemma printed_app (t u : Trace) : printed (t ++ u) = printed t ++ printed u.
Proof. unfold printed. apply flat_map_app. Qed.

Lemma Kafka_tick_no_growth (p : Kafka.Producer) (topic : string)
  (st : State) (e : TickEnv) :
  fst (observation e) <= lastSize st ->
  Kafka.tick p topic st e = (Ok (no_growth_state st e), no_growth_trace st e).
Proof.
  intros Hle. unfold Kafka.tick, no_growth_state, no_growth_trace.
  rewrite getFileInfo_eq. destruct (observation e) as [cs mt]. simpl in *.
  assert (Hlt : (lastSize st <? cs) = false) by (apply Z.ltb_ge; lia).
  rewrite Hlt. destruct (After mt (lastModTime st)); reflexivity.
Qed.

Lemma Display_tick_no_growth (st : State) (e : TickEnv) :
  fst (observation e) <= lastSize st ->
  Display.tick st e = (Ok (no_growth_state st e), no_growth_trace st e).
Proof.
  intros Hle. unfold Display.tick, no_growth_state, no_growth_trace.
  rewrite getFileInfo_eq. destruct (observation e) as [cs mt]. simpl in *.
  assert (Hlt : (lastSize st <? cs) = false) by (apply Z.ltb_ge; lia).
  rewrite Hlt. destruct (After mt (lastModTime st)); reflexivity.
Qed.

Lemma no_growth_trace_quiet (st : State) (e : TickEnv) :
  produced (no_growth_trace st e) = [] /\ reads (no_growth_trace st e) = []
  /\ ~ In SysOpen (no_growth_trace st e).
Proof.
  unfold no_growth_trace.
  destruct (env_stat e), (After (snd (observation e)) (lastModTime st));
    simpl; intuition congruence.
Qed.

Lemma no_growth_state_size (st : State) (e : TickEnv) :
  lastSize (no_growth_state st e) = lastSize st.
Proof.
  unfold no_growth_state.
  destruct (After (snd (observation e)) (lastModTime st)); reflexivity.
Qed.

Lemma sub64_exact (a b : Z) :
  0 <= b -> b <= a -> a <= int64_max -> sub64 a b = a - b.
Proof.
  unfold sub64, wrap64, int64_max. intros Hb Hab Ha.
  rewrite Z.mod_small; lia.
Qed.

Lemma make_bytes_ok (n : Z) :
  0 <= n -> n <= maxAlloc ->
  make_bytes n = ret (repeat zero_byte (Z.to_nat n)).
Proof.
  intros Hlo Hhi. unfold make_bytes.
  assert (H : (n <? 0) || (maxAlloc <? n) = false).
  { apply orb_false_intro; apply Z.ltb_ge; lia. }
  rewrite H. reflexivity.
Qed.

Lemma make_bytes_panics (n : Z) :
  n < 0 \/ maxAlloc < n -> make_bytes n = abort PanicMakeslice.
Proof.
  intros H. unfold make_bytes.
  assert (Hb : (n <? 0) || (maxAlloc <? n) = true).
  { apply orb_true_iff. destruct H; [left | right]; apply Z.ltb_lt; lia. }
  rewrite Hb. reflexivity.
Qed.

(** Unfolds one of the two readers down to the oracle's answers. *)
Ltac read_cases e oldSize newSize :=
  unfold Kafka.readNewContent, Display.displayNewContent, make_bytes;
  destruct (env_open e) as [content|]; simpl;
  [ destruct (seek_ok e oldSize); simpl;
    [ destruct ((sub64 newSize oldSize <? 0)
                || (maxAlloc <? sub64 newSize oldSize)); simpl;
      [ | destruct (file_read e content oldSize
                      (repeat zero_byte (Z.to_nat (sub64 newSize oldSize))))
            as [[got filled]|]; simpl ]
    | ]
  | ].

Lemma readNewContent_produces_nothing (e : TickEnv) (oldSize newSize : Z) :
  produced (trace (Kafka.readNewContent e oldSize newSize)) = [].
Proof. read_cases e oldSize newSize; reflexivity. Qed.


Lemma send_trace_no_read_warning (e : TickEnv) (p : Kafka.Producer)
  (topic : string) (newContent : bytes) :
  existsb read_warning (warnings (send_trace e p topic newContent)) = false
  /\ reads (send_trace e p topic newContent) = [].
Proof.
  unfold send_trace, Kafka.sendToKafka.
  destruct (nonempty newContent), (env_produce_ok e); split; reflexivity.
Qed.

(** A tick that finds growth: the report, the delta read, the hand-over to
    the producer, and the new state whatever the read returned. *)
Lemma Kafka_tick_growth (p : Kafka.Producer) (topic : string) (st : State)
  (e : TickEnv) (cs : Z) (mt : Time) :
  env_stat e = Some (cs, mt) -> lastSize st < cs ->
  Kafka.tick p topic st e =
  match Kafka.readNewContent e (lastSize st) cs with
  | (Ok newContent, t) =>
      (Ok {| lastSize := cs; lastModTime := mt |},
       [SysStat; Print (PrFileUpdated (env_now e) (sub64 cs (lastSize st)) cs)]
       ++ t ++ send_trace e p topic newContent)
  | (Stop why, t) =>
      (Stop why,
       [SysStat; Print (PrFileUpdated (env_now e) (sub64 cs (lastSize st)) cs)]
       ++ t)
  end.
Proof.
  intros Hstat Hlt. unfold Kafka.tick, getFileInfo, send_trace. rewrite Hstat.
  simpl. apply Z.ltb_lt in Hlt. rewrite Hlt. simpl.
  destruct (Kafka.readNewContent e (lastSize st) cs) as [[nc|why] t]; simpl.
  - destruct (if nonempty nc then Kafka.sendToKafka e p topic nc else ret tt)
      as [[[]|why] t'] eqn:Hsend; simpl.
    + rewrite app_nil_r. reflexivity.
    + exfalso. unfold Kafka.sendToKafka in Hsend.
      destruct (nonempty nc), (env_produce_ok e); discriminate Hsend.
  - reflexivity.
Qed.

Lemma Display_tick_growth (st : State) (e : TickEnv) (cs : Z) (mt : Time) :
  env_stat e = Some (cs, mt) -> lastSize st < cs ->
  Display.tick st e =
  match Display.displayNewContent e (lastSize st) cs with
  | (Ok _, t) =>
      (Ok {| lastSize := cs; lastModTime := mt |},
       [SysStat; Print (PrFileUpdated (env_now e) (sub64 cs (lastSize st)) cs)]
       ++ t)
  | (Stop why, t) =>
      (Stop why,
       [SysStat; Print (PrFileUpdated (env_now e) (sub64 cs (lastSize st)) cs)]
       ++ t)
  end.
Proof.
  intros Hstat Hlt. unfold Display.tick, getFileInfo. rewrite Hstat.
  simpl. apply Z.ltb_lt in Hlt. rewrite Hlt. simpl.
  destruct (Display.displayNewContent e (lastSize st) cs) as [[[]|why] t];
    simpl; [rewrite app_nil_r|]; reflexivity.
Qed.

(** ** Ticks that find no growth *)

(** C7. On a tick whose observed size equals the recorded size while the
    modification time is strictly newer, either monitor issues the [stat]
    call and prints the "modified but size unchanged" line, and nothing
    else: no read, no message to the producer.  The new state keeps the
    recorded size and takes the observed modification time. *)
Theorem metadata_only_update (p : Kafka.Producer) (topic : string)
  (st : State) (e : TickEnv) (mt : Time) :
  env_stat e = Some (lastSize st, mt) ->
  lastModTime st < mt ->
  Kafka.tick p topic st e =
    (Ok {| lastSize := lastSize st; lastModTime := mt |},
     [SysStat; Print (PrModifiedUnchanged (env_now e) (lastSize st))])
  /\ Display.tick st e =
    (Ok {| lastSize := lastSize st; lastModTime := mt |},
     [SysStat; Print (PrModifiedUnchanged (env_now e) (lastSize st))]).
Proof.
  intros Hstat Hnewer.
  assert (Hobs := observation_stat e _ _ Hstat).
  assert (Hafter : After mt (lastModTime st) = true)
    by (apply Z.ltb_lt; exact Hnewer).
  rewrite Kafka_tick_no_growth, Display_tick_no_growth
    by (rewrite Hobs; simpl; lia).
  unfold no_growth_state, no_growth_trace.
  rewrite Hobs, Hstat. simpl. rewrite Hafter. split; reflexivity.
Qed.

Lemma metadata_only_update_witness :
  Kafka.tick sample_producer "hdfslog" state_9 env_touched =
    (Ok {| lastSize := 9; lastModTime := 50 |},
     [SysStat; Print (PrModifiedUnchanged 3000 9)])
  /\ Display.tick state_9 env_touched =
    (Ok {| lastSize := 9; lastModTime := 50 |},
     [SysStat; Print (PrModifiedUnchanged 3000 9)]).
Proof.
  apply (metadata_only_update sample_producer "hdfslog" state_9 env_touched 50).
  - reflexivity.
  - simpl. lia.
Defined.

(** C6. On a tick whose observed size is strictly smaller than the recorded
    size, either monitor finishes the tick without a panic, opens no file,
    issues no [read] call at all (hence none with a negative byte count),
    and the forwarding monitor hands no message to the producer. *)
Theorem shrinkage_reads_nothing (p : Kafka.Producer) (topic : string)
  (st : State) (e : TickEnv) :
  fst (observation e) < lastSize st ->
  (exists st', result (Kafka.tick p topic st e) = Ok st')
  /\ reads (trace (Kafka.tick p topic st e)) = []
  /\ produced (trace (Kafka.tick p topic st e)) = []
  /\ ~ In SysOpen (trace (Kafka.tick p topic st e))
  /\ (exists st', result (Display.tick st e) = Ok st')
  /\ reads (trace (Display.tick st e)) = []
  /\ ~ In SysOpen (trace (Display.tick st e)).
Proof.
  intros Hlt.
  rewrite Kafka_tick_no_growth, Display_tick_no_growth by lia.
  destruct (no_growth_trace_quiet st e) as (Hprod & Hreads & Hopen).
  unfold result, trace. simpl.
  repeat split; eauto.
Qed.

Lemma shrinkage_reads_nothing_witness :
  (exists st', result (Kafka.tick sample_producer "hdfslog" state_9 env_shrunk)
               = Ok st')
  /\ reads (trace (Kafka.tick sample_producer "hdfslog" state_9 env_shrunk)) = []
  /\ produced (trace (Kafka.tick sample_producer "hdfslog" state_9 env_shrunk))
     = []
  /\ ~ In SysOpen (trace (Kafka.tick sample_producer "hdfslog" state_9 env_shrunk))
  /\ (exists st', result (Display.tick state_9 env_shrunk) = Ok st')
  /\ reads (trace (Display.tick state_9 env_shrunk)) = []
  /\ ~ In SysOpen (trace (Display.tick state_9 env_shrunk)).
Proof.
  apply (shrinkage_reads_nothing sample_producer "hdfslog" state_9 env_shrunk).
  simpl. lia.
Defined.

(** ** Start-up and the states the loop reaches *)

Lemma initial_eq (e0 : TickEnv) :
  Kafka.initial e0 =
  (Ok {| lastSize := fst (observation e0); lastModTime := snd (observation e0) |},
   (SysStat :: match env_stat e0 with None => [Log WarnFileInfo] | Some _ => [] end)
   ++ [Print (PrInitial (fst (observation e0)) (snd (observation e0)))]).
Proof.
  unfold Kafka.initial. rewrite getFileInfo_eq.
  destruct (observation e0) as [size mtime]. simpl.
  destruct (env_stat e0); reflexivity.
Qed.

Lemma Display_initial_eq (e0 : TickEnv) : Display.initial e0 = Kafka.initial e0.
Proof. reflexivity. Qed.

Lemma Kafka_start_ok (s : StartEnv) (c : Kafka.KafkaConfig)
  (p : Kafka.Producer) (st0 : State) :
  result (Kafka.start s) = Ok (c, p, st0) ->
  result (Kafka.loadKafkaConfig (start_config s)) = Ok (inl c)
  /\ result (Kafka.createKafkaProducer (start_producer_ok s) c) = Ok (Some p)
  /\ st0 = {| lastSize := fst (observation (start_observe s));
              lastModTime := snd (observation (start_observe s)) |}.
Proof.
  unfold Kafka.start.
  destruct (flag_file s =? "")%string; [discriminate|].
  destruct (start_abs s) as [absPath|]; [|discriminate].
  destruct (start_not_exist s); [discriminate|].
  destruct (Kafka.loadKafkaConfig (start_config s)) as [[[c'|err]|why] t];
    simpl; try discriminate.
  destruct (Kafka.createKafkaProducer (start_producer_ok s) c')
    as [[[p'|]|why] t'] eqn:Hmake; simpl; try discriminate.
  rewrite initial_eq. simpl. unfold result. simpl.
  intros H. injection H as -> -> <-. rewrite Hmake. auto.
Qed.

(** ** A file that does not grow *)

Lemma delta_free_produced (t : Trace) :
  existsb delta_event t = false -> produced t = [] /\ reads t = [].
Proof.
  induction t as [|ev t IH]; simpl; [auto|].
  intros H. apply orb_false_elim in H as [Hev Ht].
  destruct (IH Ht) as [Hp Hr]. rewrite Hp, Hr.
  destruct ev as [ | | | | | |l|]; try discriminate Hev; auto.
Qed.

Lemma no_growth_trace_delta_free (st : State) (e : TickEnv) :
  existsb delta_event (no_growth_trace st e) = false.
Proof.
  unfold no_growth_trace.
  destruct (env_stat e), (After (snd (observation e)) (lastModTime st));
    reflexivity.
Qed.

Lemma Kafka_start_delta_free (s : StartEnv) :
  existsb delta_event (trace (Kafka.start s)) = false.
Proof.
  unfold Kafka.start, Kafka.loadKafkaConfig, Kafka.createKafkaProducer.
  destruct (flag_file s =? "")%string; [reflexivity|].
  destruct (start_abs s) as [absPath|]; [|reflexivity].
  destruct (start_not_exist s); [reflexivity|].
  rewrite initial_eq.
  destruct (start_config s); simpl; try reflexivity.
  destruct (start_producer_ok s); simpl; try reflexivity.
  destruct (env_stat (start_observe s)); reflexivity.
Qed.

Lemma Display_start_eq (s : StartEnv) :
  (exists why, Display.start s = (Stop why, []))
  \/ exists absPath,
       Display.start s =
       (Ok {| lastSize := fst (observation (start_observe s));
              lastModTime := snd (observation (start_observe s)) |},
        [Print (PrStartMonitor absPath); Print (PrInterval (flag_interval s))]
        ++ trace (Display.initial (start_observe s))).
Proof.
  unfold Display.start.
  destruct (flag_file s =? "")%string; [left; eexists; reflexivity|].
  destruct (start_abs s) as [absPath|]; [|left; eexists; reflexivity].
  destruct (start_not_exist s); [left; eexists; reflexivity|].
  right. exists absPath. rewrite Display_initial_eq, initial_eq. reflexivity.
Qed.

(** ** The delta read *)

Lemma skipn_repeat {A} (x : A) (n m : nat) :
  skipn m (repeat x n) = repeat x (n - m).
Proof.
  revert m. induction n as [|n IH]; intros [|m]; simpl; auto.
Qed.

(** One [Read] into a buffer of [n] zero bytes: the bytes the kernel hands
    back come first, the rest of the buffer stays as [make] left it. *)
Lemma file_read_some (e : TickEnv) (content : bytes) (offset : Z) (n : nat)
  (k : positive) :
  env_read e = ReadAtMost k ->
  (0 < Nat.min n (Nat.min (Pos.to_nat k)
                    (length (skipn (Z.to_nat offset) content))))%nat ->
  file_read e content offset (repeat zero_byte n) =
  Some (Nat.min n (Nat.min (Pos.to_nat k)
                     (length (skipn (Z.to_nat offset) content))),
        firstn (Nat.min n (Nat.min (Pos.to_nat k)
                             (length (skipn (Z.to_nat offset) content))))
               (skipn (Z.to_nat offset) content)
        ++ repeat zero_byte
             (n - Nat.min n (Nat.min (Pos.to_nat k)
                               (length (skipn (Z.to_nat offset) content))))).
Proof.
  intros Hread Hgot. unfold file_read. rewrite Hread, repeat_length.
  set (got := Nat.min n _) in *.
  destruct n as [|n]; [simpl in Hgot; lia|].
  rewrite <- skipn_repeat.
  destruct got as [|got]; [lia|]. reflexivity.
Qed.

Lemma readNewContent_read (e : TickEnv) (oldSize newSize : Z)
  (content filled : bytes) (got : nat) :
  env_open e = Some content ->
  seek_ok e oldSize = true ->
  0 <= sub64 newSize oldSize <= maxAlloc ->
  file_read e content oldSize
    (repeat zero_byte (Z.to_nat (sub64 newSize oldSize))) = Some (got, filled) ->
  Kafka.readNewContent e oldSize newSize =
  (Ok filled,
   [SysOpen; SysSeek oldSize;
    SysRead (sub64 newSize oldSize) (Some (Z.of_nat got));
    Print (PrNewContent filled); SysClose]).
Proof.
  intros Hopen Hseek Hlen Hread. unfold Kafka.readNewContent.
  rewrite Hopen, Hseek, make_bytes_ok by lia. simpl.
  rewrite Hread, repeat_length, Z2Nat.id by lia.
  reflexivity.
Qed.

(** A growth tick of the forwarding monitor whose open, seek and read
    succeed, event by event. *)
Lemma Kafka_tick_read (p : Kafka.Producer) (topic : string) (st : State)
  (e : TickEnv) (cs : Z) (mt : Time) (content : bytes) (k : positive)
  (got : nat) :
  env_stat e = Some (cs, mt) ->
  0 <= lastSize st -> lastSize st < cs -> cs <= int64_max ->
  cs - lastSize st <= maxAlloc ->
  env_open e = Some content ->
  env_seek_ok e = true ->
  env_read e = ReadAtMost k ->
  got = Nat.min (Z.to_nat (cs - lastSize st))
          (Nat.min (Pos.to_nat k)
             (length (skipn (Z.to_nat (lastSize st)) content))) ->
  (0 < got)%nat ->
  Kafka.tick p topic st e =
  (Ok {| lastSize := cs; lastModTime := mt |},
   [SysStat; Print (PrFileUpdated (env_now e) (cs - lastSize st) cs);
    SysOpen; SysSeek (lastSize st);
    SysRead (cs - lastSize st) (Some (Z.of_nat got));
    Print (PrNewContent
             (firstn got (skipn (Z.to_nat (lastSize st)) content)
              ++ repeat zero_byte (Z.to_nat (cs - lastSize st) - got)));
    SysClose;
    Produce
      {| msg_topic := topic;
         msg_partition := PartitionAny;
         msg_value :=
           firstn got (skipn (Z.to_nat (lastSize st)) content)
           ++ repeat zero_byte (Z.to_nat (cs - lastSize st) - got);
         msg_key :=
           ("hdfs-log-" ++ sprint_d (Kafka.UnixNano (env_now_key e)))%string;
         msg_timestamp := env_now_stamp e |}]
   ++ (if env_produce_ok e then [] else [Log WarnSend])).
Proof.
  intros Hstat Hold Hlt Hmax Halloc Hopen Hseek Hread -> Hgot.
  rewrite (Kafka_tick_growth p topic st e cs mt Hstat Hlt).
  assert (Hsub : sub64 cs (lastSize st) = cs - lastSize st)
    by (apply sub64_exact; lia).
  assert (Hseek' : seek_ok e (lastSize st) = true).
  { unfold seek_ok. rewrite Hseek.
    apply andb_true_intro. split; [apply Z.leb_le; lia | reflexivity]. }
  assert (Hbuf := file_read_some e content (lastSize st)
                    (Z.to_nat (cs - lastSize st)) k Hread Hgot).
  rewrite <- Hsub in Hbuf at 1.
  rewrite (readNewContent_read e (lastSize st) cs content _ _
             Hopen Hseek' ltac:(lia) Hbuf).
  rewrite Hsub. set (got := Nat.min _ _) in *.
  set (payload := firstn got _ ++ _).
  assert (Hne : nonempty payload = true).
  { unfold payload.
    destruct (firstn got (skipn (Z.to_nat (lastSize st)) content)) eqn:Hf;
      [|reflexivity].
    apply (f_equal (@length byte)) in Hf. rewrite length_firstn in Hf.
    simpl in Hf. unfold got in Hf, Hgot. lia. }
  unfold send_trace, Kafka.sendToKafka. rewrite Hne.
  destruct (env_produce_ok e); reflexivity.
Qed.

(** C3. From a recorded size of 0, a tick that finds a size of 74 and whose
    open, seek and read succeed, the read handing back all 74 bytes of the
    file, ends in the state of size 74, prints the report of 74 new bytes
    (of a total of 74) and the new content, and hands the producer exactly
    one message, whose value is the 74 bytes of the file as they are. *)
Theorem growth_of_74_bytes (p : Kafka.Producer) (topic : string) (mt0 : Time)
  (e : TickEnv) (content : bytes) (mt : Time) (k : positive) :
  length content = 74%nat ->
  env_stat e = Some (74, mt) ->
  env_open e = Some content ->
  env_seek_ok e = true ->
  env_read e = ReadAtMost k ->
  (74 <= Pos.to_nat k)%nat ->
  result (Kafka.tick p topic {| lastSize := 0; lastModTime := mt0 |} e)
  = Ok {| lastSize := 74; lastModTime := mt |}
  /\ printed (trace (Kafka.tick p topic {| lastSize := 0; lastModTime := mt0 |} e))
     = [PrFileUpdated (env_now e) 74 74; PrNewContent content]
  /\ produced (trace (Kafka.tick p topic {| lastSize := 0; lastModTime := mt0 |} e))
     = [ {| msg_topic := topic;
            msg_partition := PartitionAny;
            msg_value := content;
            msg_key :=
              ("hdfs-log-" ++ sprint_d (Kafka.UnixNano (env_now_key e)))%string;
            msg_timestamp := env_now_stamp e |} ].
Proof.
  intros Hlen Hstat Hopen Hseek Hread Hk.
  set (st := {| lastSize := 0; lastModTime := mt0 |}).
  assert (Hold : 0 <= lastSize st) by (simpl; lia).
  assert (Hlt : lastSize st < 74) by (simpl; lia).
  assert (Hmax : 74 <= int64_max) by (unfold int64_max; lia).
  assert (Halloc : 74 - lastSize st <= maxAlloc)
    by (unfold maxAlloc; simpl; lia).
  rewrite (Kafka_tick_read p topic st e 74 mt content k 74%nat
             Hstat Hold Hlt Hmax Halloc Hopen Hseek Hread).
  - subst st. cbn [lastSize].
    change (Z.to_nat (74 - 0)) with 74%nat. change (Z.to_nat 0) with 0%nat.
    rewrite Nat.sub_diag. cbn [skipn repeat].
    rewrite app_nil_r, <- Hlen, firstn_all.
    unfold result, trace. cbn [fst snd].
    rewrite printed_app, produced_app.
    destruct (env_produce_ok e); repeat split; reflexivity.
  - subst st. cbn [lastSize].
    change (Z.to_nat (74 - 0)) with 74%nat. change (Z.to_nat 0) with 0%nat.
    cbn [skipn]. rewrite Hlen. lia.
  - lia.
Qed.

Lemma growth_of_74_bytes_witness :
  result (Kafka.tick sample_producer "hdfslog" state_empty env_line)
  = Ok {| lastSize := 74; lastModTime := 70 |}
  /\ printed (trace (Kafka.tick sample_producer "hdfslog" state_empty env_line))
     = [PrFileUpdated 5000 74 74; PrNewContent sample_line]
  /\ produced (trace (Kafka.tick sample_producer "hdfslog" state_empty env_line))
     = [ {| msg_topic := "hdfslog";
            msg_partition := PartitionAny;
            msg_value := sample_line;
            msg_key :=
              ("hdfs-log-" ++ sprint_d (Kafka.UnixNano 5001))%string;
            msg_timestamp := 5002 |} ].
Proof.
  apply (growth_of_74_bytes sample_producer "hdfslog" 0 env_line sample_line
           70 4096).
  - reflexivity.
  - reflexivity.
  - reflexivity.
  - reflexivity.
  - reflexivity.
  - lia.
Defined.

(** ** Delta reads that fail or fall short *)



(** A tick that finds growth, in terms of what [getFileInfo] returned. *)
Lemma Kafka_tick_growth_observed (p : Kafka.Producer) (topic : string)
  (st : State) (e : TickEnv) :
  lastSize st < fst (observation e) ->
  Kafka.tick p topic st e =
  match Kafka.readNewContent e (lastSize st) (fst (observation e)) with
  | (Ok newContent, t) =>
      (Ok {| lastSize := fst (observation e);
             lastModTime := snd (observation e) |},
       trace (getFileInfo e)
       ++ [Print (PrFileUpdated (env_now e)
                    (sub64 (fst (observation e)) (lastSize st))
                    (fst (observation e)))]
       ++ t ++ send_trace e p topic newContent)
  | (Stop why, t) =>
      (Stop why,
       trace (getFileInfo e)
       ++ [Print (PrFileUpdated (env_now e)
                    (sub64 (fst (observation e)) (lastSize st))
                    (fst (observation e)))]
       ++ t)
  end.
Proof.
  intros Hlt. unfold Kafka.tick, send_trace. rewrite getFileInfo_eq.
  destruct (observation e) as [cs mt]. cbn [fst snd] in *.
  apply Z.ltb_lt in Hlt. unfold bind at 1. rewrite Hlt.
  unfold trace. cbn [snd].
  destruct (Kafka.readNewContent e (lastSize st) cs) as [[nc|why] t].
  - cbn. unfold Kafka.sendToKafka.
    destruct (nonempty nc); [destruct (env_produce_ok e)|]; cbn;
      rewrite ?app_nil_r; reflexivity.
  - reflexivity.
Qed.






(** Either reader issues at most one [read] call, for [newSize - oldSize]
    bytes, and returns. *)
Lemma readNewContent_single_read (e : TickEnv) (oldSize newSize : Z) :
  0 <= oldSize -> oldSize < newSize -> newSize <= int64_max ->
  newSize - oldSize <= maxAlloc ->
  exists nc t,
    Kafka.readNewContent e oldSize newSize = (Ok nc, t)
    /\ (reads t = [] \/ exists got, reads t = [(newSize - oldSize, got)]).
Proof.
  intros Hold Hlt Hmax Halloc.
  assert (Hsub : sub64 newSize oldSize = newSize - oldSize)
    by (apply sub64_exact; lia).
  unfold Kafka.readNewContent. rewrite Hsub, make_bytes_ok by lia.
  destruct (env_open e) as [content|]; simpl; [|eauto].
  destruct (seek_ok e oldSize); simpl; [|eauto].
  rewrite repeat_length, Z2Nat.id by lia.
  destruct (file_read e content oldSize _) as [[got filled]|]; simpl;
    eexists; eexists; (split; [reflexivity|]); right; eexists; reflexivity.
Qed.

Lemma displayNewContent_single_read (e : TickEnv) (oldSize newSize : Z) :
  0 <= oldSize -> oldSize < newSize -> newSize <= int64_max ->
  newSize - oldSize <= maxAlloc ->
  exists t,
    Display.displayNewContent e oldSize newSize = (Ok tt, t)
    /\ (reads t = [] \/ exists got, reads t = [(newSize - oldSize, got)]).
Proof.
  intros Hold Hlt Hmax Halloc.
  assert (Hsub : sub64 newSize oldSize = newSize - oldSize)
    by (apply sub64_exact; lia).
  unfold Display.displayNewContent. rewrite Hsub, make_bytes_ok by lia.
  destruct (env_open e) as [content|]; simpl; [|eauto].
  destruct (seek_ok e oldSize); simpl; [|eauto].
  rewrite repeat_length, Z2Nat.id by lia.
  destruct (file_read e content oldSize _) as [[got filled]|]; simpl;
    eexists; (split; [reflexivity|]); right; eexists; reflexivity.
Qed.

(** C2, as stated, fails.  From the empty state a tick finds 10 bytes, and
    the kernel hands back 4 of them although 6 more are in the file.  Either
    monitor issues that one [read] call and no other, so 4 bytes are
    obtained, not 10, and the recorded size moves on by the 10 requested. *)
Lemma single_short_read_cex :
  reads (trace (Kafka.tick sample_producer "hdfslog" state_empty env_short))
  = [(10, Some 4)]
  /\ bytes_obtained
       (trace (Kafka.tick sample_producer "hdfslog" state_empty env_short)) = 4
  /\ result (Kafka.tick sample_producer "hdfslog" state_empty env_short)
     = Ok state_10
  /\ reads (trace (Display.tick state_empty env_short)) = [(10, Some 4)]
  /\ result (Display.tick state_empty env_short) = Ok state_10
  /\ lastSize state_10 - lastSize state_empty
     <> bytes_obtained
          (trace (Kafka.tick sample_producer "hdfslog" state_empty env_short)).
Proof.
  repeat split; try reflexivity.
  vm_compute. discriminate.
Qed.

(** C2, amended.  On a tick that detects growth from a recorded size that is
    not negative, by no more than [maxAlloc] bytes (above which [make]
    panics before any read), either monitor issues at most one [read] call,
    for [currentSize - lastSize] bytes, and does not call again whatever
    that call obtained; the tick then ends with the recorded size equal to
    the observed size, that is, moved on by the number of bytes requested. *)
Theorem single_read_advances_by_request (p : Kafka.Producer) (topic : string)
  (st : State) (e : TickEnv) (cs : Z) (mt : Time) :
  env_stat e = Some (cs, mt) ->
  0 <= lastSize st -> lastSize st < cs -> cs <= int64_max ->
  cs - lastSize st <= maxAlloc ->
  (result (Kafka.tick p topic st e) = Ok {| lastSize := cs; lastModTime := mt |}
   /\ (reads (trace (Kafka.tick p topic st e)) = []
       \/ exists got,
            reads (trace (Kafka.tick p topic st e))
            = [(cs - lastSize st, got)]))
  /\ (result (Display.tick st e) = Ok {| lastSize := cs; lastModTime := mt |}
      /\ (reads (trace (Display.tick st e)) = []
          \/ exists got,
               reads (trace (Display.tick st e)) = [(cs - lastSize st, got)])).
Proof.
  intros Hstat Hold Hlt Hmax Halloc. split.
  - rewrite (Kafka_tick_growth p topic st e cs mt Hstat Hlt).
    destruct (readNewContent_single_read e (lastSize st) cs
                Hold Hlt Hmax Halloc) as (nc & t & -> & Hreads).
    destruct (send_trace_no_read_warning e p topic nc) as [_ Hsend].
    unfold result, trace. cbn [fst snd].
    rewrite !reads_app, Hsend, app_nil_r. auto.
  - rewrite (Display_tick_growth st e cs mt Hstat Hlt).
    destruct (displayNewContent_single_read e (lastSize st) cs
                Hold Hlt Hmax Halloc) as (t & -> & Hreads).
    unfold result, trace. cbn [fst snd].
    rewrite reads_app. auto.
Qed.

Lemma single_read_advances_by_request_witness :
  (result (Kafka.tick sample_producer "hdfslog" state_empty env_short)
   = Ok {| lastSize := 10; lastModTime := 5 |}
   /\ (reads (trace (Kafka.tick sample_producer "hdfslog" state_empty env_short))
       = []
       \/ exists got,
            reads (trace (Kafka.tick sample_producer "hdfslog" state_empty
                            env_short))
            = [(10 - 0, got)]))
  /\ (result (Display.tick state_empty env_short)
      = Ok {| lastSize := 10; lastModTime := 5 |}
      /\ (reads (trace (Display.tick state_empty env_short)) = []
          \/ exists got,
               reads (trace (Display.tick state_empty env_short))
               = [(10 - 0, got)])).
Proof.
  apply (single_read_advances_by_request sample_producer "hdfslog" state_empty
           env_short 10 5).
  - reflexivity.
  - simpl. lia.
  - simpl. lia.
  - unfold int64_max. lia.
  - unfold maxAlloc. simpl. lia.
Defined.

(** ** Configuration and producer *)

Lemma loadKafkaConfig_accepts (cf : ConfigFile) (config : Kafka.KafkaConfig) :
  result (Kafka.loadKafkaConfig cf) = Ok (inl config) ->
  exists d, cf = CfgDocument d.
Proof.
  destruct cf as [ | | |d]; unfold result; simpl; try discriminate.
  intros _. exists d. reflexivity.
Qed.

(** The configuration [loadKafkaConfig] returns, field by field. *)
Lemma loadKafkaConfig_fields (d : Document) :
  result (Kafka.loadKafkaConfig (CfgDocument d)) =
  Ok (inl
        {| Kafka.Broker := match doc_broker d with Some v => v | None => "" end;
           Kafka.Topic :=
             match doc_topic d with
             | Some v => if (v =? "")%string then "hdfslog" else v
             | None => "hdfslog"
             end;
           Kafka.ClientID :=
             match doc_client_id d with
             | Some v => if (v =? "")%string then "hdfs-log-monitor" else v
             | None => "hdfs-log-monitor"
             end;
           Kafka.MaxRetry :=
             match doc_max_retry d with
             | Some v => if v =? 0 then 3 else v
             | None => 3
             end;
           Kafka.RetryBackoff :=
             match doc_retry_backoff_ms d with
             | Some v => if v =? 0 then 100 else v
             | None => 100
             end;
           Kafka.TimeoutMS :=
             match doc_timeout_ms d with
             | Some v => if v =? 0 then 5000 else v
             | None => 5000
             end |}).
Proof.
  destruct d as [b t c m r o].
  unfold result, Kafka.loadKafkaConfig, Kafka.unmarshal. cbn.
  destruct t as [t|]; [destruct (t =? "")%string|]; cbn;
    (destruct c as [c|]; [destruct (c =? "")%string|]; cbn;
     (destruct m as [m|]; [destruct (m =? 0)|]; cbn;
      (destruct r as [r|]; [destruct (r =? 0)|]; cbn;
       (destruct o as [o|]; [destruct (o =? 0)|]; reflexivity)))).
Qed.

(** Fields the document sets to something other than Go's zero value are
    loaded as they are. *)
Lemma set_fields_are_kept (d : Document) (config : Kafka.KafkaConfig) :
  result (Kafka.loadKafkaConfig (CfgDocument d)) = Ok (inl config) ->
  (forall v, doc_broker d = Some v -> Kafka.Broker config = v)
  /\ (forall v, doc_topic d = Some v -> v <> ""%string -> Kafka.Topic config = v)
  /\ (forall v, doc_client_id d = Some v -> v <> ""%string ->
                Kafka.ClientID config = v)
  /\ (forall v, doc_max_retry d = Some v -> v <> 0 -> Kafka.MaxRetry config = v)
  /\ (forall v, doc_retry_backoff_ms d = Some v -> v <> 0 ->
                Kafka.RetryBackoff config = v)
  /\ (forall v, doc_timeout_ms d = Some v -> v <> 0 ->
                Kafka.TimeoutMS config = v).
Proof.
  rewrite loadKafkaConfig_fields. intros H. injection H as <-. cbn.
  split; [intros v ->; reflexivity|].
  repeat split; intros v -> Hv;
    try (apply String.eqb_neq in Hv); try (apply Z.eqb_neq in Hv);
    rewrite Hv; reflexivity.
Qed.

(** C9. In every configuration that [loadKafkaConfig] returns, a field the
    document leaves unset holds its default: topic ["hdfslog"], client
    identity ["hdfs-log-monitor"], 3 retries, a retry back-off of 100 ms and
    a timeout of 5000 ms. *)
Theorem unset_fields_take_defaults (d : Document) (config : Kafka.KafkaConfig) :
  result (Kafka.loadKafkaConfig (CfgDocument d)) = Ok (inl config) ->
  (doc_topic d = None -> Kafka.Topic config = "hdfslog"%string)
  /\ (doc_client_id d = None ->
      Kafka.ClientID config = "hdfs-log-monitor"%string)
  /\ (doc_max_retry d = None -> Kafka.MaxRetry config = 3)
  /\ (doc_retry_backoff_ms d = None -> Kafka.RetryBackoff config = 100)
  /\ (doc_timeout_ms d = None -> Kafka.TimeoutMS config = 5000).
Proof.
  rewrite loadKafkaConfig_fields. intros H. injection H as <-. cbn.
  repeat split; intros ->; reflexivity.
Qed.

Lemma unset_fields_take_defaults_witness :
  Kafka.Topic sample_config = "hdfslog"%string
  /\ Kafka.ClientID sample_config = "hdfs-log-monitor"%string
  /\ Kafka.MaxRetry sample_config = 3
  /\ Kafka.RetryBackoff sample_config = 100
  /\ Kafka.TimeoutMS sample_config = 5000.
Proof.
  destruct (unset_fields_take_defaults sample_document sample_config eq_refl)
    as (Ht & Hc & Hm & Hr & Ho).
  split; [apply Ht; reflexivity|].
  split; [apply Hc; reflexivity|].
  split; [apply Hm; reflexivity|].
  split; [apply Hr; reflexivity|].
  apply Ho; reflexivity.
Defined.

(** Whatever the configuration, the producer is built for one address. *)
Lemma createKafkaProducer_broker (new_ok : bool) (config : Kafka.KafkaConfig)
  (p : Kafka.Producer) :
  result (Kafka.createKafkaProducer new_ok config) = Ok (Some p) ->
  Kafka.broker_of p = Some (Kafka.CVString "192.168.100.98:9092").
Proof.
  unfold Kafka.createKafkaProducer, result. destruct new_ok; simpl.
  - intros H. injection H as <-. reflexivity.
  - discriminate.
Qed.

(** C4 does not hold of the code.  Started on a configuration file whose
    broker is ["localhost:9092"], the monitor loads that address, prints
    that it configures the producer with it, and builds the producer for
    ["192.168.100.98:9092"]. *)
Theorem producer_ignores_configured_broker :
  result (Kafka.start sample_start)
  = Ok (sample_config, started_producer, state_9)
  /\ Kafka.Broker sample_config = "localhost:9092"%string
  /\ In (Print (PrConfiguring "localhost:9092")) (trace (Kafka.start sample_start))
  /\ Kafka.broker_of started_producer
     = Some (Kafka.CVString "192.168.100.98:9092")
  /\ Kafka.broker_of started_producer
     <> Some (Kafka.CVString (Kafka.Broker sample_config)).
Proof.
  repeat split; try reflexivity.
  - simpl. auto.
  - discriminate.
Qed.

(** * Further properties of the code *)

(** ** Sequencing *)

Lemma bind_result {A B} (m : IO A) (f : A -> IO B) :
  result (bind m f) =
  match result m with
  | Ok a => result (f a)
  | Stop why => Stop why
  end.
Proof.
  destruct m as [[a|why] t]; unfold bind, result; cbn [fst]; [|reflexivity].
  destruct (f a); reflexivity.
Qed.

Lemma bind_trace {A B} (m : IO A) (f : A -> IO B) :
  trace (bind m f) =
  match result m with
  | Ok a => trace m ++ trace (f a)
  | Stop _ => trace m
  end.
Proof.
  destruct m as [[a|why] t]; unfold bind, result, trace; cbn [fst snd];
    [|reflexivity].
  destruct (f a); reflexivity.
Qed.

(** The ticker lets the loop run, or panics before its first tick. *)
Lemma ticker_then {A} (interval : Z) (m : IO A) :
  (0 < wrap64 (interval * 1000000000)
   /\ bind (NewTicker interval) (fun _ => m) = m)
  \/ (wrap64 (interval * 1000000000) <= 0
      /\ bind (NewTicker interval) (fun _ => m) = (Stop PanicNewTicker, [])).
Proof.
  unfold NewTicker.
  destruct (wrap64 (interval * 1000000000) <=? 0) eqn:Hd.
  - right. apply Z.leb_le in Hd. auto.
  - left. apply Z.leb_gt in Hd. split; [exact Hd|].
    unfold bind, ret. destruct m; reflexivity.
Qed.

(** ** The delta read, whatever the oracles answer *)

Lemma file_read_length (e : TickEnv) (content buf filled : bytes) (offset : Z)
  (got : nat) :
  file_read e content offset buf = Some (got, filled) ->
  length filled = length buf /\ (got <= length buf)%nat.
Proof.
  unfold file_read. destruct (env_read e) as [|k]; [discriminate|].
  destruct buf as [|b buf]; [intros H; injection H as <- <-; auto|].
  set (avail := skipn (Z.to_nat offset) content).
  set (n := Nat.min (length (b :: buf)) (Nat.min (Pos.to_nat k) (length avail))).
  assert (Hn : (n <= length (b :: buf) /\ n <= length avail)%nat)
    by (unfold n; lia).
  destruct n as [|n]; [discriminate|].
  intros H. injection H as <- <-.
  destruct avail as [|a l]; simpl in Hn; [lia|].
  simpl. rewrite length_app, length_firstn, length_skipn. lia.
Qed.

Lemma maxAlloc_fits : maxAlloc <= int64_max.
Proof. unfold maxAlloc, int64_max. lia. Qed.

(** A delta read for growth up to a size of [maxAlloc] never panics: a
    negative recorded size makes the seek fail before any buffer is made,
    and from any other the delta is within what [make] accepts. *)
Lemma readNewContent_returns (e : TickEnv) (oldSize newSize : Z) :
  oldSize < newSize -> newSize <= maxAlloc ->
  exists nc, result (Kafka.readNewContent e oldSize newSize) = Ok nc.
Proof.
  intros Hlt Hmax. assert (Hfits := maxAlloc_fits).
  unfold Kafka.readNewContent, seek_ok.
  destruct (env_open e) as [content|]; simpl; [|eauto].
  destruct (0 <=? oldSize) eqn:Hold; simpl; [|eauto].
  destruct (env_seek_ok e); simpl; [|eauto].
  apply Z.leb_le in Hold.
  assert (Hsub : sub64 newSize oldSize = newSize - oldSize)
    by (apply sub64_exact; lia).
  rewrite make_bytes_ok by lia. simpl.
  destruct (file_read e content oldSize _) as [[got filled]|]; simpl; eauto.
Qed.

(** What a delta read returns is empty or fills the whole buffer. *)
Lemma readNewContent_length (e : TickEnv) (oldSize newSize : Z) (nc : bytes) :
  result (Kafka.readNewContent e oldSize newSize) = Ok nc ->
  nc = [] \/ Z.of_nat (length nc) = sub64 newSize oldSize.
Proof.
  unfold Kafka.readNewContent, make_bytes.
  destruct (env_open e) as [content|]; simpl;
    [|intros H; injection H as <-; auto].
  destruct (seek_ok e oldSize); simpl; [|intros H; injection H as <-; auto].
  destruct ((sub64 newSize oldSize <? 0) || (maxAlloc <? sub64 newSize oldSize))
    eqn:Hneg; simpl; [discriminate|].
  apply orb_false_elim in Hneg as [Hneg _]. apply Z.ltb_ge in Hneg.
  destruct (file_read e content oldSize _) as [[got filled]|] eqn:Hread; simpl;
    intros H; injection H as <-; [|auto].
  right. apply file_read_length in Hread as [-> _].
  rewrite repeat_length. lia.
Qed.

(** The two readers issue the same events, and stop alike. *)
Lemma displayNewContent_as_readNewContent (e : TickEnv) (oldSize newSize : Z) :
  trace (Display.displayNewContent e oldSize newSize)
  = trace (Kafka.readNewContent e oldSize newSize)
  /\ result (Display.displayNewContent e oldSize newSize)
     = match result (Kafka.readNewContent e oldSize newSize) with
       | Ok _ => Ok tt
       | Stop why => Stop why
       end.
Proof. read_cases e oldSize newSize; split; reflexivity. Qed.

Lemma send_trace_eq (e : TickEnv) (p : Kafka.Producer) (topic : string)
  (nc : bytes) :
  send_trace e p topic nc =
  if nonempty nc
  then Produce (message_of e topic nc)
       :: (if env_produce_ok e then [] else [Log WarnSend])
  else [].
Proof.
  unfold send_trace, Kafka.sendToKafka, message_of.
  destruct (nonempty nc), (env_produce_ok e); reflexivity.
Qed.

Lemma Display_tick_growth_observed (st : State) (e : TickEnv) :
  lastSize st < fst (observation e) ->
  Display.tick st e =
  match Kafka.readNewContent e (lastSize st) (fst (observation e)) with
  | (Ok _, t) =>
      (Ok {| lastSize := fst (observation e);
             lastModTime := snd (observation e) |},
       trace (getFileInfo e)
       ++ [Print (PrFileUpdated (env_now e)
                    (sub64 (fst (observation e)) (lastSize st))
                    (fst (observation e)))]
       ++ t)
  | (Stop why, t) =>
      (Stop why,
       trace (getFileInfo e)
       ++ [Print (PrFileUpdated (env_now e)
                    (sub64 (fst (observation e)) (lastSize st))
                    (fst (observation e)))]
       ++ t)
  end.
Proof.
  intros Hlt. unfold Display.tick. rewrite getFileInfo_eq.
  destruct (displayNewContent_as_readNewContent e (lastSize st)
              (fst (observation e))) as [Htrace Hresult].
  destruct (observation e) as [cs mt]. cbn [fst snd] in *.
  apply Z.ltb_lt in Hlt. unfold bind at 1. rewrite Hlt.
  unfold trace, result in *. cbn [snd].
  destruct (Display.displayNewContent e (lastSize st) cs) as [r t].
  destruct (Kafka.readNewContent e (lastSize st) cs) as [[nc|why] t'];
    cbn [fst snd] in *; subst; cbn; rewrite ?app_nil_r; reflexivity.
Qed.

(** The tick of either monitor, by cases on what was observed. *)
Lemma tick_cases (p : Kafka.Producer) (topic : string) (st : State)
  (e : TickEnv) :
  let cs := fst (observation e) in
  let mt := snd (observation e) in
  let report := [Print (PrFileUpdated (env_now e) (sub64 cs (lastSize st)) cs)] in
  (cs <= lastSize st
   /\ Kafka.tick p topic st e = (Ok (no_growth_state st e), no_growth_trace st e)
   /\ Display.tick st e = (Ok (no_growth_state st e), no_growth_trace st e))
  \/ (lastSize st < cs
      /\ exists nc t,
           Kafka.readNewContent e (lastSize st) cs = (Ok nc, t)
           /\ Kafka.tick p topic st e =
              (Ok {| lastSize := cs; lastModTime := mt |},
               trace (getFileInfo e) ++ report ++ t ++ send_trace e p topic nc)
           /\ Display.tick st e =
              (Ok {| lastSize := cs; lastModTime := mt |},
               trace (getFileInfo e) ++ report ++ t))
  \/ (lastSize st < cs
      /\ exists why t,
           Kafka.readNewContent e (lastSize st) cs = (Stop why, t)
           /\ Kafka.tick p topic st e
              = (Stop why, trace (getFileInfo e) ++ report ++ t)
           /\ Display.tick st e
              = (Stop why, trace (getFileInfo e) ++ report ++ t)).
Proof.
  intros cs mt report. subst cs mt report.
  destruct (Z_lt_le_dec (lastSize st) (fst (observation e))) as [Hlt|Hle].
  - rewrite (Kafka_tick_growth_observed p topic st e Hlt),
            (Display_tick_growth_observed st e Hlt).
    destruct (Kafka.readNewContent e (lastSize st) (fst (observation e)))
      as [[nc|why] t]; [right; left | right; right]; split; eauto.
  - left. split; [exact Hle|].
    split; [apply Kafka_tick_no_growth | apply Display_tick_no_growth]; exact Hle.
Qed.

(** ** The two monitors side by side *)

Lemma strip_sends_app (t u : Trace) :
  strip_sends (t ++ u) = strip_sends t ++ strip_sends u.
Proof. unfold strip_sends. apply filter_app. Qed.

Lemma strip_sends_readNewContent (e : TickEnv) (oldSize newSize : Z) :
  strip_sends (trace (Kafka.readNewContent e oldSize newSize))
  = trace (Kafka.readNewContent e oldSize newSize).
Proof. read_cases e oldSize newSize; reflexivity. Qed.

Lemma strip_sends_getFileInfo (e : TickEnv) :
  strip_sends (trace (getFileInfo e)) = trace (getFileInfo e).
Proof.
  rewrite getFileInfo_eq. unfold trace. cbn [snd].
  destruct (env_stat e); reflexivity.
Qed.

Lemma strip_sends_send_trace (e : TickEnv) (p : Kafka.Producer)
  (topic : string) (nc : bytes) :
  strip_sends (send_trace e p topic nc) = [].
Proof.
  rewrite send_trace_eq.
  destruct (nonempty nc), (env_produce_ok e); reflexivity.
Qed.

Lemma strip_sends_no_growth (st : State) (e : TickEnv) :
  strip_sends (no_growth_trace st e) = no_growth_trace st e.
Proof.
  unfold no_growth_trace.
  destruct (env_stat e), (After (snd (observation e)) (lastModTime st));
    reflexivity.
Qed.

Lemma tick_variants_agree (p : Kafka.Producer) (topic : string) (st : State)
  (e : TickEnv) :
  result (Display.tick st e) = result (Kafka.tick p topic st e)
  /\ trace (Display.tick st e) = strip_sends (trace (Kafka.tick p topic st e)).
Proof.
  destruct (tick_cases p topic st e)
    as [(_ & -> & ->) | [(_ & nc & t & Hread & -> & ->)
                        | (_ & why & t & Hread & -> & ->)]];
    unfold result, trace; cbn [fst snd]; (split; [reflexivity|]);
    fold (trace (getFileInfo e)).
  - symmetry. apply strip_sends_no_growth.
  - assert (Ht := strip_sends_readNewContent e (lastSize st)
                    (fst (observation e))).
    rewrite Hread in Ht. unfold trace in Ht. cbn [snd] in Ht.
    rewrite !strip_sends_app, strip_sends_getFileInfo, Ht,
      strip_sends_send_trace, app_nil_r. reflexivity.
  - assert (Ht := strip_sends_readNewContent e (lastSize st)
                    (fst (observation e))).
    rewrite Hread in Ht. unfold trace in Ht. cbn [snd] in Ht.
    rewrite !strip_sends_app, strip_sends_getFileInfo, Ht. reflexivity.
Qed.

(** The two loops, state and events. *)
Lemma Display_run_as_Kafka_run (p : Kafka.Producer) (topic : string)
  (es : list TickEnv) (st : State) :
  result (Display.run st es) = result (Kafka.run p topic st es)
  /\ trace (Display.run st es) = strip_sends (trace (Kafka.run p topic st es)).
Proof.
  revert st. induction es as [|e es IH]; intros st; [split; reflexivity|].
  cbn [Display.run Kafka.run].
  rewrite !bind_result, !bind_trace.
  destruct (tick_variants_agree p topic st e) as [-> ->].
  destruct (result (Kafka.tick p topic st e)) as [st1|why]; [|auto].
  destruct (IH st1) as [-> ->]. rewrite strip_sends_app. auto.
Qed.

(** X1. The plain monitor and the forwarding monitor run the same loop: on
    the same ticks from the same state they end in the same state (or stop
    alike), and the events of the plain monitor are those of the forwarding
    monitor without the hand-overs to the producer and their warnings. *)
Theorem run_variants_agree (p : Kafka.Producer) (topic : string)
  (es : list TickEnv) (st : State) :
  result (Display.run st es) = result (Kafka.run p topic st es)
  /\ trace (Display.run st es) = strip_sends (trace (Kafka.run p topic st es)).
Proof.
  destruct (Display_run_as_Kafka_run p topic es st) as [Hresult Htrace].
  split; [exact Hresult | exact Htrace].
Qed.

(** ** What the loop keeps and never does *)

Lemma tick_returns (p : Kafka.Producer) (topic : string) (st : State)
  (e : TickEnv) :
  size_allocates e = true ->
  exists st', result (Kafka.tick p topic st e) = Ok st'.
Proof.
  intros Hfit. apply Z.leb_le in Hfit.
  destruct (tick_cases p topic st e)
    as [(_ & -> & _) | [(_ & nc & t & _ & -> & _)
                       | (Hlt & why & t & Hread & _)]];
    try (eexists; reflexivity).
  destruct (readNewContent_returns e _ _ Hlt Hfit) as [nc Hok].
  rewrite Hread in Hok. discriminate Hok.
Qed.

(** X2. Neither monitor's loop stops on its own while the file stays within
    what [make] can allocate: over any ticks whose observed sizes are at
    most [maxAlloc], from any state, every tick ends normally, whatever
    fails in it (stat, open, seek, read, send).  The length handed to
    [make] is then never out of range: a negative recorded size makes the
    seek fail before the buffer is made, and from any other the delta is at
    most the observed size.  (Running out of memory below [maxAlloc] is
    outside this model.) *)
Theorem loop_never_stops (p : Kafka.Producer) (topic : string)
  (es : list TickEnv) (st : State) :
  forallb size_allocates es = true ->
  (exists st', result (Kafka.run p topic st es) = Ok st')
  /\ (exists st', result (Display.run st es) = Ok st').
Proof.
  intros Hes.
  assert (H : exists st', result (Kafka.run p topic st es) = Ok st').
  { revert st. induction es as [|e es IH]; intros st; [exists st; reflexivity|].
    cbn [forallb] in Hes. apply andb_prop in Hes as [He Hes].
    cbn [Kafka.run]. rewrite bind_result.
    destruct (tick_returns p topic st e He) as [st1 ->]. apply (IH Hes). }
  split; [exact H|].
  destruct (Display_run_as_Kafka_run p topic es st) as [-> _]. exact H.
Qed.

Lemma loop_never_stops_witness :
  (exists st', result (Kafka.run sample_producer "hdfslog" state_empty
                         [env_open_fails; env_stat_fails; env_short; env_shrunk])
               = Ok st')
  /\ (exists st', result (Display.run state_empty
                            [env_open_fails; env_stat_fails; env_short;
                             env_shrunk])
                  = Ok st').
Proof.
  apply (loop_never_stops sample_producer "hdfslog"
           [env_open_fails; env_stat_fails; env_short; env_shrunk] state_empty).
  reflexivity.
Defined.

Lemma tick_size_monotone (p : Kafka.Producer) (topic : string) (st st' : State)
  (e : TickEnv) :
  result (Kafka.tick p topic st e) = Ok st' ->
  lastSize st <= lastSize st'.
Proof.
  destruct (tick_cases p topic st e)
    as [(_ & -> & _) | [(Hlt & nc & t & _ & -> & _)
                       | (_ & why & t & _ & -> & _)]];
    unfold result; cbn [fst]; intros H; [| |discriminate H];
    injection H as <-.
  - rewrite no_growth_state_size. lia.
  - cbn [lastSize]. lia.
Qed.

(** X3. The recorded size never decreases: whatever the ticks observe (a
    truncated file, a failed stat), the size recorded after any number of
    ticks is at least the size recorded before, in both monitors. *)
Theorem recorded_size_never_decreases (p : Kafka.Producer) (topic : string)
  (es : list TickEnv) (st st' : State) :
  result (Kafka.run p topic st es) = Ok st' \/ result (Display.run st es) = Ok st' ->
  lastSize st <= lastSize st'.
Proof.
  intros H.
  assert (Hk : result (Kafka.run p topic st es) = Ok st').
  { destruct H as [H|H]; [exact H|].
    destruct (Display_run_as_Kafka_run p topic es st) as [<- _]. exact H. }
  clear H. revert st Hk. induction es as [|e es IH]; intros st.
  - unfold result. cbn. intros H. injection H as <-. lia.
  - cbn [Kafka.run]. rewrite bind_result.
    destruct (result (Kafka.tick p topic st e)) as [st1|why] eqn:Htick;
      [|discriminate].
    intros Hrun. apply tick_size_monotone in Htick. apply IH in Hrun. lia.
Qed.

Lemma recorded_size_never_decreases_witness :
  lastSize state_empty <= lastSize {| lastSize := 10; lastModTime := 60 |}.
Proof.
  apply (recorded_size_never_decreases sample_producer "hdfslog"
           [env_short; env_shrunk; env_stat_fails] state_empty
           {| lastSize := 10; lastModTime := 60 |}).
  left. reflexivity.
Defined.

(** ** The messages handed to the producer *)

Lemma in_produced (m : Message) (t : Trace) :
  In m (produced t) <-> In (Produce m) t.
Proof.
  unfold produced. rewrite in_flat_map. split.
  - intros (ev & Hin & Hm). destruct ev; try contradiction.
    destruct Hm as [->|[]]. exact Hin.
  - intros Hin. exists (Produce m). split; [exact Hin | left; reflexivity].
Qed.

Lemma produced_getFileInfo (e : TickEnv) : produced (trace (getFileInfo e)) = [].
Proof.
  rewrite getFileInfo_eq. unfold trace. cbn [snd].
  destruct (env_stat e); reflexivity.
Qed.

(** A tick hands the producer nothing, or the one message made of what the
    delta read returned, which is not empty. *)
Lemma tick_produced (p : Kafka.Producer) (topic : string) (st : State)
  (e : TickEnv) :
  produced (trace (Kafka.tick p topic st e)) = []
  \/ exists nc,
       nonempty nc = true
       /\ lastSize st < fst (observation e)
       /\ result (Kafka.readNewContent e (lastSize st) (fst (observation e)))
          = Ok nc
       /\ produced (trace (Kafka.tick p topic st e)) = [message_of e topic nc].
Proof.
  destruct (tick_cases p topic st e)
    as [(_ & -> & _) | [(Hlt & nc & t & Hread & -> & _)
                       | (_ & why & t & Hread & -> & _)]];
    unfold trace; cbn [snd]; fold (trace (getFileInfo e)).
  - left. apply no_growth_trace_quiet.
  - assert (Ht := readNewContent_produces_nothing e (lastSize st)
                    (fst (observation e))).
    rewrite Hread in Ht. unfold trace in Ht. cbn [snd] in Ht.
    rewrite !produced_app, produced_getFileInfo, Ht, send_trace_eq.
    destruct (nonempty nc) eqn:Hne; [right | left; reflexivity].
    exists nc. rewrite Hread.
    destruct (env_produce_ok e); repeat split; auto.
  - assert (Ht := readNewContent_produces_nothing e (lastSize st)
                    (fst (observation e))).
    rewrite Hread in Ht. unfold trace in Ht. cbn [snd] in Ht.
    rewrite !produced_app, produced_getFileInfo, Ht. left. reflexivity.
Qed.

Lemma run_produced (p : Kafka.Producer) (topic : string) (es : list TickEnv) :
  forall (st : State) (m : Message),
  In m (produced (trace (Kafka.run p topic st es))) ->
  exists e nc, In e es /\ nonempty nc = true /\ m = message_of e topic nc.
Proof.
  induction es as [|e es IH]; intros st m; [intros []|].
  cbn [Kafka.run]. rewrite bind_trace.
  assert (Htick := tick_produced p topic st e).
  destruct (result (Kafka.tick p topic st e)) as [st1|why];
    [rewrite produced_app; intros Hin; apply in_app_or in Hin as [Hin|Hin]
    | intros Hin].
  - destruct Htick as [Hnone|(nc & Hne & _ & _ & Hone)];
      [rewrite Hnone in Hin; destruct Hin|].
    rewrite Hone in Hin. destruct Hin as [<-|[]].
    exists e, nc. repeat split; auto. left. reflexivity.
  - destruct (IH st1 m Hin) as (e' & nc & Hin' & Hne & Hm).
    exists e', nc. repeat split; auto. right. exact Hin'.
  - destruct Htick as [Hnone|(nc & Hne & _ & _ & Hone)];
      [rewrite Hnone in Hin; destruct Hin|].
    rewrite Hone in Hin. destruct Hin as [<-|[]].
    exists e, nc. repeat split; auto. left. reflexivity.
Qed.

Lemma nonempty_true (s : bytes) : nonempty s = true -> s <> [].
Proof. destruct s; [discriminate | intros _; discriminate]. Qed.

(** X4. Every message a run of the forwarding monitor hands to the producer
    goes to the topic of the loaded configuration (the topic of the
    configuration file, ["hdfslog"] when the file sets none or an empty
    one), to no fixed partition, under a key that starts with ["hdfs-log-"],
    and carries at least one byte. *)
Theorem messages_go_to_configured_topic (s : StartEnv) (d : Document)
  (es : list TickEnv) (m : Message) :
  start_config s = CfgDocument d ->
  In (Produce m) (trace (Kafka.main s es)) ->
  msg_topic m =
    match doc_topic d with
    | Some v => if (v =? "")%string then "hdfslog"%string else v
    | None => "hdfslog"%string
    end
  /\ msg_partition m = PartitionAny
  /\ prefix "hdfs-log-" (msg_key m) = true
  /\ msg_value m <> [].
Proof.
  intros Hcfg Hin. apply in_produced in Hin. revert Hin.
  unfold Kafka.main. rewrite bind_trace.
  destruct (delta_free_produced _ (Kafka_start_delta_free s)) as [Hstart _].
  destruct (result (Kafka.start s)) as [[[c p] st0]|why] eqn:Hres;
    [|rewrite Hstart; intros []].
  rewrite produced_app, Hstart. cbn [app]. intros Hin.
  destruct (ticker_then (flag_interval s)
              (Kafka.run p (Kafka.Topic c) st0 es)) as [[_ Hgo]|[_ Hgo]];
    rewrite Hgo in Hin; [|destruct Hin].
  apply run_produced in Hin as (e & nc & _ & Hne & ->).
  apply Kafka_start_ok in Hres as (Hload & _ & _).
  rewrite Hcfg, loadKafkaConfig_fields in Hload. injection Hload as <-.
  cbn. split; [reflexivity|]. split; [reflexivity|].
  split; [|apply nonempty_true, Hne].
  destruct (sprint_d (Kafka.UnixNano (env_now_key e))); reflexivity.
Qed.

Lemma messages_go_to_configured_topic_witness :
  msg_topic (message_of env_line "hdfslog" sample_line) = "hdfslog"%string
  /\ msg_partition (message_of env_line "hdfslog" sample_line) = PartitionAny
  /\ prefix "hdfs-log-" (msg_key (message_of env_line "hdfslog" sample_line))
     = true
  /\ msg_value (message_of env_line "hdfslog" sample_line) <> [].
Proof.
  apply (messages_go_to_configured_topic
           {| flag_file := "hdfs.log"; flag_interval := 5;
              flag_config := "kafka_config.json";
              start_abs := Some "/var/log/hdfs.log"%string;
              start_not_exist := false;
              start_config := CfgDocument sample_document;
              start_producer_ok := true;
              start_observe := env_stat_fails |}
           sample_document [env_line]).
  - reflexivity.
  - vm_compute. repeat (first [left; reflexivity | right]).
Defined.

(** X5. A run of the forwarding monitor hands the producer at most one
    message per tick. *)
Theorem at_most_one_message_per_tick (p : Kafka.Producer) (topic : string)
  (es : list TickEnv) (st : State) :
  (length (produced (trace (Kafka.run p topic st es))) <= length es)%nat.
Proof.
  revert st. induction es as [|e es IH]; intros st; [cbn; lia|].
  cbn [Kafka.run]. rewrite bind_trace.
  assert (Htick : (length (produced (trace (Kafka.tick p topic st e))) <= 1)%nat).
  { destruct (tick_produced p topic st e) as [->|(nc & _ & _ & _ & ->)];
      cbn; lia. }
  destruct (result (Kafka.tick p topic st e)) as [st1|why].
  - rewrite produced_app, length_app. specialize (IH st1). cbn [length]. lia.
  - cbn [length]. lia.
Qed.

(** X6. The value of a message is as long as the growth its tick reported:
    from a recorded size that is not negative, a tick that observes an
    [int64] size and hands a message to the producer gives it exactly
    [currentSize - lastSize] bytes, whatever the read obtained. *)
Theorem message_length_is_growth (p : Kafka.Producer) (topic : string)
  (st : State) (e : TickEnv) (m : Message) :
  0 <= lastSize st ->
  size_fits e = true ->
  In (Produce m) (trace (Kafka.tick p topic st e)) ->
  Z.of_nat (length (msg_value m)) = fst (observation e) - lastSize st.
Proof.
  intros Hold Hfit Hin. apply Z.leb_le in Hfit. apply in_produced in Hin.
  destruct (tick_produced p topic st e) as [Hnone|(nc & Hne & Hlt & Hread & Hone)];
    [rewrite Hnone in Hin; destruct Hin|].
  rewrite Hone in Hin. destruct Hin as [<-|[]]. cbn [message_of msg_value].
  apply readNewContent_length in Hread as [->|Hlen]; [discriminate Hne|].
  rewrite Hlen. apply sub64_exact; lia.
Qed.

Lemma message_length_is_growth_witness :
  Z.of_nat (length (msg_value (message_of env_short "hdfslog"
                                 (list_byte_of_string "0123"
                                  ++ repeat zero_byte 6))))
  = fst (observation env_short) - lastSize state_empty.
Proof.
  apply (message_length_is_growth sample_producer "hdfslog" state_empty
           env_short).
  - simpl. lia.
  - reflexivity.
  - vm_compute. repeat (first [left; reflexivity | right]).
Defined.

(** ** A file that only grows *)

(** A growth tick whose read is full. *)
Lemma Kafka_tick_full_read (p : Kafka.Producer) (topic : string)
  (st : State) (e : TickEnv) (cs : Z) (mt : Time) (content : bytes)
  (k : positive) :
  env_stat e = Some (cs, mt) ->
  0 <= lastSize st -> lastSize st < cs -> cs <= int64_max ->
  cs - lastSize st <= maxAlloc ->
  env_open e = Some content ->
  env_seek_ok e = true ->
  env_read e = ReadAtMost k ->
  (Z.to_nat cs <= length content)%nat ->
  (Z.to_nat (cs - lastSize st) <= Pos.to_nat k)%nat ->
  result (Kafka.tick p topic st e) = Ok {| lastSize := cs; lastModTime := mt |}
  /\ produced (trace (Kafka.tick p topic st e))
     = [message_of e topic
          (firstn (Z.to_nat (cs - lastSize st))
             (skipn (Z.to_nat (lastSize st)) content))].
Proof.
  intros Hstat Hold Hlt Hmax Halloc Hopen Hseek Hread Hfile Hk.
  assert (Havail : (Z.to_nat (cs - lastSize st)
                    <= length (skipn (Z.to_nat (lastSize st)) content))%nat)
    by (rewrite length_skipn; lia).
  rewrite (Kafka_tick_read p topic st e cs mt content k
             (Z.to_nat (cs - lastSize st))
             Hstat Hold Hlt Hmax Halloc Hopen Hseek Hread) by lia.
  rewrite Nat.sub_diag. cbn [repeat]. rewrite app_nil_r.
  unfold result, trace, message_of. cbn [fst snd].
  rewrite produced_app. destruct (env_produce_ok e); split; reflexivity.
Qed.

(** X7. A growth tick that reads in full forwards the appended range: when
    the file holds at least [currentSize] bytes as it is read and the one
    [read] call hands back all the [currentSize - lastSize] bytes asked for
    (at most [maxAlloc], the most [make] gives a buffer for), the tick hands
    the producer one message whose value is the bytes of the file from
    offset [lastSize] up to [currentSize], and records [currentSize]. *)
Theorem full_read_forwards_appended_range (p : Kafka.Producer) (topic : string)
  (st : State) (e : TickEnv) (cs : Z) (mt : Time) (content : bytes)
  (k : positive) :
  env_stat e = Some (cs, mt) ->
  0 <= lastSize st -> lastSize st < cs -> cs <= int64_max ->
  cs - lastSize st <= maxAlloc ->
  env_open e = Some content ->
  env_seek_ok e = true ->
  env_read e = ReadAtMost k ->
  (Z.to_nat cs <= length content)%nat ->
  (Z.to_nat (cs - lastSize st) <= Pos.to_nat k)%nat ->
  result (Kafka.tick p topic st e) = Ok {| lastSize := cs; lastModTime := mt |}
  /\ produced (trace (Kafka.tick p topic st e))
     = [message_of e topic
          (firstn (Z.to_nat (cs - lastSize st))
             (skipn (Z.to_nat (lastSize st)) content))].
Proof.
  intros Hstat Hold Hlt Hmax Halloc Hopen Hseek Hread Hfile Hk.
  destruct (Kafka_tick_full_read p topic st e cs mt content k
              Hstat Hold Hlt Hmax Halloc Hopen Hseek Hread Hfile Hk)
    as [Hresult Hproduced].
  split; [exact Hresult | exact Hproduced].
Qed.

Lemma full_read_forwards_appended_range_witness :
  result (Kafka.tick sample_producer "hdfslog"
            {| lastSize := 4; lastModTime := 3 |} env_readable)
  = Ok {| lastSize := 10; lastModTime := 5 |}
  /\ produced (trace (Kafka.tick sample_producer "hdfslog"
                        {| lastSize := 4; lastModTime := 3 |} env_readable))
     = [message_of env_readable "hdfslog" (list_byte_of_string "456789")].
Proof.
  apply (full_read_forwards_appended_range sample_producer "hdfslog"
           {| lastSize := 4; lastModTime := 3 |} env_readable 10 5
           ten_digits 4096).
  - reflexivity.
  - simpl. lia.
  - simpl. lia.
  - unfold int64_max. lia.
  - unfold maxAlloc. simpl. lia.
  - reflexivity.
  - reflexivity.
  - reflexivity.
  - simpl. lia.
  - simpl. lia.
Defined.

Lemma bytes_eqb_eq (a b : bytes) : bytes_eqb a b = true -> a = b.
Proof.
  revert b. induction a as [|x a IH]; intros [|y b]; simpl; try discriminate.
  - reflexivity.
  - intros H. apply andb_prop in H as [Hxy Hab].
    apply Byte.byte_dec_bl in Hxy. rewrite Hxy, (IH b Hab). reflexivity.
Qed.

Lemma finds_appended_inv (content delta : bytes) (e : TickEnv) :
  finds_appended content delta e = true ->
  exists mt k,
    env_stat e = Some (Z.of_nat (length (content ++ delta)), mt)
    /\ env_open e = Some (content ++ delta)
    /\ env_seek_ok e = true
    /\ env_read e = ReadAtMost k
    /\ (length delta <= Pos.to_nat k)%nat.
Proof.
  unfold finds_appended. intros H.
  apply andb_prop in H as [H Hread]. apply andb_prop in H as [H Hseek].
  apply andb_prop in H as [Hstat Hopen].
  destruct (env_stat e) as [[size mt]|]; [|discriminate].
  destruct (env_open e) as [c|]; [|discriminate].
  destruct (env_read e) as [|k]; [discriminate|].
  apply Z.eqb_eq in Hstat. apply bytes_eqb_eq in Hopen.
  apply Nat.leb_le in Hread. subst. exists mt, k. auto.
Qed.

Lemma concat_filter_nonempty (l : list bytes) :
  concat (filter nonempty l) = concat l.
Proof.
  induction l as [|[|b s] l IH]; simpl; [reflexivity | exact IH |].
  rewrite IH. reflexivity.
Qed.

(** One tick of a growing file: nothing if nothing was appended, else one
    message that carries what was appended. *)
Lemma append_only_tick (p : Kafka.Producer) (topic : string) (st : State)
  (e : TickEnv) (content delta : bytes) :
  lastSize st = Z.of_nat (length content) ->
  Z.of_nat (length (content ++ delta)) <= int64_max ->
  Z.of_nat (length delta) <= maxAlloc ->
  finds_appended content delta e = true ->
  exists st',
    result (Kafka.tick p topic st e) = Ok st'
    /\ lastSize st' = Z.of_nat (length (content ++ delta))
    /\ map msg_value (produced (trace (Kafka.tick p topic st e)))
       = filter nonempty [delta].
Proof.
  intros Hsize Hmax Halloc Hsees.
  apply finds_appended_inv in Hsees
    as (mt & k & Hstat & Hopen & Hseek & Hread & Hk).
  rewrite length_app in *.
  destruct delta as [|b delta].
  - rewrite Kafka_tick_no_growth
      by (rewrite (observation_stat e _ _ Hstat); cbn [fst length]; lia).
    exists (no_growth_state st e). unfold result, trace. cbn [fst snd].
    destruct (no_growth_trace_quiet st e) as (-> & _ & _).
    rewrite no_growth_state_size. cbn [length]. repeat split. lia.
  - destruct (Kafka_tick_full_read p topic st e _ mt
                (content ++ b :: delta) k Hstat) as [Hres Hprod];
      rewrite ?length_app; cbn [length] in *; try lia; try assumption.
    exists {| lastSize := Z.of_nat (length content + S (length delta));
              lastModTime := mt |}.
    split; [exact Hres|]. split; [reflexivity|].
    rewrite Hprod. cbn [map message_of msg_value filter nonempty].
    rewrite Hsize, Nat2Z.id.
    replace (Z.to_nat (Z.of_nat (length content + S (length delta))
                       - Z.of_nat (length content)))
      with (length (b :: delta)) by (cbn [length]; lia).
    rewrite skipn_app, skipn_all, Nat.sub_diag. cbn [skipn app].
    rewrite firstn_all. reflexivity.
Qed.

(** X8. No loss and no duplication while the file only grows and every read
    is full: over any number of ticks, each finding the file as it was
    plus the bytes appended since the tick before (none, maybe, and at most
    [maxAlloc]) and each reading all of those appended bytes in its one
    [read] call, however long the file is by then, the forwarding monitor
    hands the producer exactly one message per non-empty appended piece, in
    order, each carrying that piece; the values laid end to end are the
    bytes appended since the start, and the recorded size ends as the
    length of the file. *)
Theorem append_only_run_forwards_each_delta (p : Kafka.Producer)
  (topic : string) (ticks : list (bytes * TickEnv)) (content : bytes)
  (st : State) :
  lastSize st = Z.of_nat (length content) ->
  Z.of_nat (length (content ++ concat (map fst ticks))) <= int64_max ->
  append_only content ticks = true ->
  map msg_value (produced (trace (Kafka.run p topic st (map snd ticks))))
  = filter nonempty (map fst ticks)
  /\ concat (map msg_value
               (produced (trace (Kafka.run p topic st (map snd ticks)))))
     = concat (map fst ticks)
  /\ exists st',
       result (Kafka.run p topic st (map snd ticks)) = Ok st'
       /\ lastSize st' = Z.of_nat (length (content ++ concat (map fst ticks))).
Proof.
  intros Hsize Hmax Happ.
  assert (H : map msg_value
                (produced (trace (Kafka.run p topic st (map snd ticks))))
              = filter nonempty (map fst ticks)
              /\ exists st',
                   result (Kafka.run p topic st (map snd ticks)) = Ok st'
                   /\ lastSize st'
                      = Z.of_nat (length (content ++ concat (map fst ticks)))).
  { revert content st Hsize Hmax Happ.
    induction ticks as [|[delta e] ticks IH]; intros content st Hsize Hmax Happ.
    - cbn. rewrite app_nil_r. split; [reflexivity|]. exists st. auto.
    - cbn [append_only] in Happ. apply andb_prop in Happ as [Hsees Happ].
      apply andb_prop in Hsees as [Halloc Hsees]. apply Z.leb_le in Halloc.
      cbn [map fst snd concat] in *. rewrite app_assoc in Hmax.
      assert (Hmax1 : Z.of_nat (length (content ++ delta)) <= int64_max)
        by (rewrite length_app in Hmax; lia).
      destruct (append_only_tick p topic st e content delta
                  Hsize Hmax1 Halloc Hsees) as (st1 & Hres & Hsize1 & Hprod).
      destruct (IH (content ++ delta) st1 Hsize1 Hmax Happ)
        as (Hrest & st' & Hres' & Hsize').
      cbn [Kafka.run]. rewrite bind_trace, bind_result, Hres.
      rewrite produced_app, map_app, Hprod, Hrest.
      split.
      + destruct (nonempty delta) eqn:Hne; cbn [filter]; rewrite Hne;
          reflexivity.
      + exists st'. rewrite app_assoc. auto. }
  destruct H as [Hvalues Hstate].
  split; [exact Hvalues|]. split; [|exact Hstate].
  rewrite Hvalues. apply concat_filter_nonempty.
Qed.

Lemma append_only_run_forwards_each_delta_witness :
  map msg_value
    (produced (trace (Kafka.run sample_producer "hdfslog" state_empty
                        (map snd
                           [(list_byte_of_string "0123", env_four);
                            ([], env_four);
                            (list_byte_of_string "456789", env_six_more)]))))
  = filter nonempty
      (map fst
         [(list_byte_of_string "0123", env_four);
          ([], env_four);
          (list_byte_of_string "456789", env_six_more)])
  /\ concat
       (map msg_value
          (produced (trace (Kafka.run sample_producer "hdfslog" state_empty
                              (map snd
                                 [(list_byte_of_string "0123", env_four);
                                  ([], env_four);
                                  (list_byte_of_string "456789",
                                   env_six_more)])))))
     = concat
         (map fst
            [(list_byte_of_string "0123", env_four);
             ([], env_four);
             (list_byte_of_string "456789", env_six_more)])
  /\ exists st',
       result (Kafka.run sample_producer "hdfslog" state_empty
                 (map snd
                    [(list_byte_of_string "0123", env_four);
                     ([], env_four);
                     (list_byte_of_string "456789", env_six_more)]))
       = Ok st'
       /\ lastSize st'
          = Z.of_nat
              (length
                 ([] ++ concat
                          (map fst
                             [(list_byte_of_string "0123", env_four);
                              ([], env_four);
                              (list_byte_of_string "456789", env_six_more)]))).
Proof.
  apply (append_only_run_forwards_each_delta sample_producer "hdfslog"
           [(list_byte_of_string "0123", env_four);
            ([], env_four);
            (list_byte_of_string "456789", env_six_more)]
           [] state_empty).
  - reflexivity.
  - unfold int64_max. simpl. lia.
  - reflexivity.
Defined.

(** ** Hand-over failures, file handles, the loop in pieces *)

Lemma stripped_has_no_send (t : Trace) (ev : Event) :
  strip_sends t = t -> In ev t -> is_send ev = false.
Proof.
  intros Hstrip Hin. rewrite <- Hstrip in Hin. unfold strip_sends in Hin.
  apply filter_In in Hin as [_ Hneg]. apply negb_true_iff in Hneg. exact Hneg.
Qed.

(** A tick logs the send warning exactly when it handed a message to a
    producer that rejected it. *)
Lemma send_warning_iff (p : Kafka.Producer) (topic : string)
  (st : State) (e : TickEnv) :
  In (Log WarnSend) (trace (Kafka.tick p topic st e))
  <-> env_produce_ok e = false
      /\ produced (trace (Kafka.tick p topic st e)) <> [].
Proof.
  assert (Hno : forall t, strip_sends t = t -> ~ In (Log WarnSend) t).
  { intros t Ht Hin. apply (stripped_has_no_send t _ Ht) in Hin.
    discriminate Hin. }
  destruct (tick_cases p topic st e)
    as [(_ & -> & _) | [(_ & nc & t & Hread & -> & _)
                       | (_ & why & t & Hread & -> & _)]];
    unfold trace; cbn [snd]; fold (trace (getFileInfo e)).
  - destruct (no_growth_trace_quiet st e) as (-> & _ & _).
    split; [intros Hin | intros [_ H]; contradiction].
    exfalso. exact (Hno _ (strip_sends_no_growth st e) Hin).
  - assert (Ht := strip_sends_readNewContent e (lastSize st)
                    (fst (observation e))).
    assert (Hp := readNewContent_produces_nothing e (lastSize st)
                    (fst (observation e))).
    rewrite Hread in Ht, Hp. unfold trace in Ht, Hp. cbn [snd] in Ht, Hp.
    rewrite !produced_app, produced_getFileInfo, Hp, send_trace_eq.
    split.
    + intros Hin.
      apply in_app_or in Hin as [Hin|Hin];
        [exfalso; exact (Hno _ (strip_sends_getFileInfo e) Hin)|].
      apply in_app_or in Hin as [Hin|Hin];
        [destruct Hin as [Hin|[]]; discriminate Hin|].
      apply in_app_or in Hin as [Hin|Hin]; [exfalso; exact (Hno _ Ht Hin)|].
      destruct (nonempty nc); [|destruct Hin].
      destruct (env_produce_ok e); [|split; [reflexivity | discriminate]].
      destruct Hin as [Hin|[]]. discriminate Hin.
    + intros [Hrej Hsome]. rewrite Hrej in *.
      destruct (nonempty nc); [|exfalso; apply Hsome; reflexivity].
      apply in_or_app. right. apply in_or_app. right. apply in_or_app. right.
      right. left. reflexivity.
  - assert (Ht := strip_sends_readNewContent e (lastSize st)
                    (fst (observation e))).
    assert (Hp := readNewContent_produces_nothing e (lastSize st)
                    (fst (observation e))).
    rewrite Hread in Ht, Hp. unfold trace in Ht, Hp. cbn [snd] in Ht, Hp.
    rewrite !produced_app, produced_getFileInfo, Hp.
    split; [intros Hin | intros [_ H]; exfalso; apply H; reflexivity].
    apply in_app_or in Hin as [Hin|Hin];
      [exfalso; exact (Hno _ (strip_sends_getFileInfo e) Hin)|].
    apply in_app_or in Hin as [Hin|Hin];
      [destruct Hin as [Hin|[]]; discriminate Hin|].
    exfalso. exact (Hno _ Ht Hin).
Qed.

(** X9. A message the producer rejects is logged and dropped, not retried.
    A tick logs "Failed to send message to Kafka" exactly when it handed a
    message to a producer that rejected it; a tick calls [Produce] at most
    once; and a tick that logs the warning made that one call and no other,
    the warning is its last event, straight after the call, and it ends
    normally with the recorded size moved on to the observed size, so that
    the rejected bytes lie below the recorded size from then on. *)
Theorem rejected_message_is_logged (p : Kafka.Producer) (topic : string)
  (st : State) (e : TickEnv) :
  (In (Log WarnSend) (trace (Kafka.tick p topic st e))
   <-> env_produce_ok e = false
       /\ produced (trace (Kafka.tick p topic st e)) <> [])
  /\ (length (produced (trace (Kafka.tick p topic st e))) <= 1)%nat
  /\ (In (Log WarnSend) (trace (Kafka.tick p topic st e)) ->
      exists m t,
        trace (Kafka.tick p topic st e) = t ++ [Produce m; Log WarnSend]
        /\ produced t = []
        /\ produced (trace (Kafka.tick p topic st e)) = [m]
        /\ lastSize st < fst (observation e)
        /\ result (Kafka.tick p topic st e)
           = Ok {| lastSize := fst (observation e);
                   lastModTime := snd (observation e) |}).
Proof.
  split; [apply send_warning_iff|]. split.
  - destruct (tick_produced p topic st e) as [->|(nc & _ & _ & _ & ->)];
      simpl; lia.
  - intros Hin. apply send_warning_iff in Hin as [Hrej Hsome].
    destruct (tick_cases p topic st e)
      as [(_ & Htick & _) | [(Hlt & nc & t & Hread & Htick & _)
                            | (_ & why & t & Hread & Htick & _)]];
      rewrite Htick in *; unfold trace in Hsome |- *; unfold result;
      cbn [fst snd] in *; fold (trace (getFileInfo e)) in *.
    + exfalso. apply Hsome. apply no_growth_trace_quiet.
    + assert (Hp := readNewContent_produces_nothing e (lastSize st)
                      (fst (observation e))).
      rewrite Hread in Hp. unfold trace in Hp. cbn [snd] in Hp.
      fold (trace (getFileInfo e)) in *.
      rewrite !produced_app, produced_getFileInfo, Hp in Hsome.
      rewrite send_trace_eq in *. rewrite Hrej in *.
      destruct (nonempty nc); [|exfalso; apply Hsome; reflexivity].
      exists (message_of e topic nc).
      exists (trace (getFileInfo e)
              ++ [Print (PrFileUpdated (env_now e)
                           (sub64 (fst (observation e)) (lastSize st))
                           (fst (observation e)))] ++ t).
      split; [rewrite <- !app_assoc; reflexivity|].
      split; [rewrite !produced_app, produced_getFileInfo, Hp; reflexivity|].
      split; [rewrite !produced_app, produced_getFileInfo, Hp; reflexivity|].
      split; [exact Hlt | reflexivity].
    + assert (Hp := readNewContent_produces_nothing e (lastSize st)
                      (fst (observation e))).
      rewrite Hread in Hp. unfold trace in Hp. cbn [snd] in Hp.
      fold (trace (getFileInfo e)) in *.
      rewrite !produced_app, produced_getFileInfo, Hp in Hsome.
      exfalso. apply Hsome. reflexivity.
Qed.

Lemma opens_app (t u : Trace) : opens (t ++ u) = (opens t + opens u)%nat.
Proof. unfold opens. rewrite filter_app, length_app. reflexivity. Qed.

Lemma closes_app (t u : Trace) : closes (t ++ u) = (closes t + closes u)%nat.
Proof. unfold closes. rewrite filter_app, length_app. reflexivity. Qed.

Lemma readNewContent_handles (e : TickEnv) (oldSize newSize : Z) :
  opens (trace (Kafka.readNewContent e oldSize newSize)) = 1%nat
  /\ closes (trace (Kafka.readNewContent e oldSize newSize))
     = match env_open e with Some _ => 1%nat | None => 0%nat end.
Proof. read_cases e oldSize newSize; split; reflexivity. Qed.

Lemma quiet_handles (e : TickEnv) (p : Kafka.Producer) (topic : string)
  (st : State) (nc : bytes) :
  opens (trace (getFileInfo e)) = 0%nat
  /\ closes (trace (getFileInfo e)) = 0%nat
  /\ opens (send_trace e p topic nc) = 0%nat
  /\ closes (send_trace e p topic nc) = 0%nat
  /\ opens (no_growth_trace st e) = 0%nat
  /\ closes (no_growth_trace st e) = 0%nat.
Proof.
  rewrite getFileInfo_eq, send_trace_eq. unfold trace, no_growth_trace.
  cbn [snd].
  destruct (env_stat e), (nonempty nc), (env_produce_ok e),
    (After (snd (observation e)) (lastModTime st)); repeat split.
Qed.

(** X10. File handles are balanced in every tick of either monitor, also
    when the tick fails or panics: the file is opened at most once, and it
    is closed exactly once if that open succeeded and never otherwise. *)
Theorem file_closed_iff_opened (p : Kafka.Producer) (topic : string)
  (st : State) (e : TickEnv) :
  (opens (trace (Kafka.tick p topic st e)) <= 1)%nat
  /\ closes (trace (Kafka.tick p topic st e))
     = match env_open e with
       | Some _ => opens (trace (Kafka.tick p topic st e))
       | None => 0%nat
       end
  /\ (opens (trace (Display.tick st e)) <= 1)%nat
  /\ closes (trace (Display.tick st e))
     = match env_open e with
       | Some _ => opens (trace (Display.tick st e))
       | None => 0%nat
       end.
Proof.
  destruct (quiet_handles e p topic st [])
    as (Hs1 & Hs2 & _ & _ & Hn1 & Hn2).
  destruct (tick_cases p topic st e)
    as [(_ & -> & ->) | [(_ & nc & t & Hread & -> & ->)
                        | (_ & why & t & Hread & -> & ->)]];
    unfold trace; cbn [snd]; fold (trace (getFileInfo e)).
  - rewrite Hn1, Hn2. destruct (env_open e); repeat split; lia.
  - destruct (quiet_handles e p topic st nc) as (_ & _ & Hq1 & Hq2 & _ & _).
    destruct (readNewContent_handles e (lastSize st) (fst (observation e)))
      as [Ho Hc].
    rewrite Hread in Ho, Hc. unfold trace in Ho, Hc. cbn [snd] in Ho, Hc.
    rewrite !opens_app, !closes_app, Hs1, Hs2, Hq1, Hq2, Ho, Hc.
    destruct (env_open e); cbn; repeat split; lia.
  - destruct (readNewContent_handles e (lastSize st) (fst (observation e)))
      as [Ho Hc].
    rewrite Hread in Ho, Hc. unfold trace in Ho, Hc. cbn [snd] in Ho, Hc.
    rewrite !opens_app, !closes_app, Hs1, Hs2, Ho, Hc.
    destruct (env_open e); cbn; repeat split; lia.
Qed.

Lemma bind_ret_l {A B} (a : A) (f : A -> IO B) : bind (ret a) f = f a.
Proof. unfold bind, ret. destruct (f a); reflexivity. Qed.

Lemma bind_assoc {A B C} (m : IO A) (f : A -> IO B) (g : B -> IO C) :
  bind (bind m f) g = bind m (fun a => bind (f a) g).
Proof.
  destruct m as [[a|why] t]; unfold bind; [|reflexivity].
  destruct (f a) as [[b|why] t']; [|reflexivity].
  destruct (g b) as [r t'']. rewrite app_assoc. reflexivity.
Qed.

Lemma bind_ext {A B} (m : IO A) (f g : A -> IO B) :
  (forall a, f a = g a) -> bind m f = bind m g.
Proof.
  intros H. destruct m as [[a|why] t]; unfold bind; [rewrite H|]; reflexivity.
Qed.

(** The loop remembers nothing but its state: running the ticks
    [es1 ++ es2] is running [es1] and then, unless that stopped, running
    [es2] from the state [es1] ended in, events in sequence. *)
Lemma run_splits_at_any_tick (p : Kafka.Producer) (topic : string)
  (es1 es2 : list TickEnv) (st : State) :
  Kafka.run p topic st (es1 ++ es2)
  = bind (Kafka.run p topic st es1) (fun st1 => Kafka.run p topic st1 es2)
  /\ Display.run st (es1 ++ es2)
     = bind (Display.run st es1) (fun st1 => Display.run st1 es2).
Proof.
  split; revert st; induction es1 as [|e es1 IH]; intros st; cbn [app].
  - cbn [Kafka.run]. rewrite bind_ret_l. reflexivity.
  - cbn [Kafka.run]. rewrite bind_assoc. apply bind_ext. exact IH.
  - cbn [Display.run]. rewrite bind_ret_l. reflexivity.
  - cbn [Display.run]. rewrite bind_assoc. apply bind_ext. exact IH.
Qed.

Lemma result_pair {A} (r : Res A) (t : Trace) : result (r, t) = r.
Proof. reflexivity. Qed.

Lemma trace_pair {A} (r : Res A) (t : Trace) : trace (r, t) = t.
Proof. reflexivity. Qed.

Lemma existsb_filter_false {A} (f g : A -> bool) (l : list A) :
  existsb f l = false -> existsb f (filter g l) = false.
Proof.
  induction l as [|x l IH]; simpl; [auto|].
  intros H. apply orb_false_elim in H as [Hx Hl].
  destruct (g x); simpl; [rewrite Hx|]; auto.
Qed.

(** X12. Nothing is read or forwarded while the file stays at or below the
    recorded size: over any ticks that observe at most the recorded size (an
    unchanged file, a truncated or rotated one, a failed stat), neither
    monitor opens or reads the file or hands over a message, and the
    recorded size stays as it was, so bytes written below it are never
    forwarded. *)
Theorem nothing_forwarded_below_recorded_size (p : Kafka.Producer)
  (topic : string) (es : list TickEnv) (st : State) :
  forallb (fun e => fst (observation e) <=? lastSize st) es = true ->
  existsb delta_event (trace (Kafka.run p topic st es)) = false
  /\ existsb delta_event (trace (Display.run st es)) = false
  /\ exists st',
       result (Kafka.run p topic st es) = Ok st'
       /\ result (Display.run st es) = Ok st'
       /\ lastSize st' = lastSize st.
Proof.
  intros Hes.
  assert (H : existsb delta_event (trace (Kafka.run p topic st es)) = false
              /\ exists st',
                   result (Kafka.run p topic st es) = Ok st'
                   /\ lastSize st' = lastSize st).
  { revert st Hes. induction es as [|e es IH]; intros st Hes.
    - split; [reflexivity|]. exists st. auto.
    - cbn [forallb] in Hes. apply andb_prop in Hes as [He Hes].
      apply Z.leb_le in He.
      rewrite <- (no_growth_state_size st e) in Hes.
      destruct (IH _ Hes) as (Hquiet & st' & Hres & Hsize).
      cbn [Kafka.run]. rewrite bind_trace, bind_result.
      rewrite (Kafka_tick_no_growth p topic st e He).
      rewrite !result_pair, !trace_pair.
      rewrite existsb_app, no_growth_trace_delta_free, Hquiet.
      split; [reflexivity|]. exists st'.
      rewrite Hres, Hsize, no_growth_state_size. auto. }
  destruct H as (Hquiet & st' & Hres & Hsize).
  destruct (Display_run_as_Kafka_run p topic es st) as [Hr Ht].
  split; [exact Hquiet|]. split.
  - rewrite Ht. apply existsb_filter_false, Hquiet.
  - exists st'. rewrite Hr. auto.
Qed.

Lemma nothing_forwarded_below_recorded_size_witness :
  existsb delta_event
    (trace (Kafka.run sample_producer "hdfslog" state_9
              [env_shrunk; env_stat_fails; env_touched])) = false
  /\ existsb delta_event
       (trace (Display.run state_9 [env_shrunk; env_stat_fails; env_touched]))
     = false
  /\ exists st',
       result (Kafka.run sample_producer "hdfslog" state_9
                 [env_shrunk; env_stat_fails; env_touched]) = Ok st'
       /\ result (Display.run state_9 [env_shrunk; env_stat_fails; env_touched])
          = Ok st'
       /\ lastSize st' = lastSize state_9.
Proof.
  apply (nothing_forwarded_below_recorded_size sample_producer "hdfslog"
           [env_shrunk; env_stat_fails; env_touched] state_9).
  reflexivity.
Defined.

Lemma file_read_eof (e : TickEnv) (content : bytes) (offset : Z) (n : nat)
  (k : positive) :
  env_read e = ReadAtMost k ->
  (length content <= Z.to_nat offset)%nat ->
  (0 < n)%nat ->
  file_read e content offset (repeat zero_byte n) = None.
Proof.
  intros Hread Hshort Hn. unfold file_read.
  rewrite Hread, skipn_all2 by exact Hshort.
  cbn [length]. rewrite !Nat.min_0_r.
  destruct n as [|n]; [lia | reflexivity].
Qed.

Lemma readNewContent_read_fails (e : TickEnv) (oldSize newSize : Z)
  (content : bytes) :
  env_open e = Some content ->
  seek_ok e oldSize = true ->
  0 <= sub64 newSize oldSize <= maxAlloc ->
  file_read e content oldSize
    (repeat zero_byte (Z.to_nat (sub64 newSize oldSize))) = None ->
  Kafka.readNewContent e oldSize newSize =
  (Ok [],
   [SysOpen; SysSeek oldSize; SysRead (sub64 newSize oldSize) None;
    Log WarnRead; SysClose]).
Proof.
  intros Hopen Hseek Hlen Hread. unfold Kafka.readNewContent.
  rewrite Hopen, Hseek, make_bytes_ok by lia. simpl.
  rewrite Hread, repeat_length, Z2Nat.id by lia.
  reflexivity.
Qed.

(** X13. A file found shorter when it is read than when it was measured: on
    a tick that finds growth of at most [maxAlloc] bytes (so that [make]
    gives the buffer), whose open and seek succeed but where the file, as
    read, ends at or before offset [lastSize], the [read] reports end of
    file; the tick logs the read warning, hands over no message, and still
    records the observed size. *)
Theorem read_past_end_is_dropped (p : Kafka.Producer) (topic : string)
  (st : State) (e : TickEnv) (cs : Z) (mt : Time) (content : bytes)
  (k : positive) :
  env_stat e = Some (cs, mt) ->
  0 <= lastSize st -> lastSize st < cs -> cs <= int64_max ->
  cs - lastSize st <= maxAlloc ->
  env_open e = Some content ->
  env_seek_ok e = true ->
  env_read e = ReadAtMost k ->
  (length content <= Z.to_nat (lastSize st))%nat ->
  Kafka.tick p topic st e =
  (Ok {| lastSize := cs; lastModTime := mt |},
   [SysStat; Print (PrFileUpdated (env_now e) (cs - lastSize st) cs);
    SysOpen; SysSeek (lastSize st); SysRead (cs - lastSize st) None;
    Log WarnRead; SysClose]).
Proof.
  intros Hstat Hold Hlt Hmax Halloc Hopen Hseek Hread Hshort.
  rewrite (Kafka_tick_growth p topic st e cs mt Hstat Hlt).
  assert (Hsub : sub64 cs (lastSize st) = cs - lastSize st)
    by (apply sub64_exact; lia).
  assert (Hseek' : seek_ok e (lastSize st) = true).
  { unfold seek_ok. rewrite Hseek.
    apply andb_true_intro. split; [apply Z.leb_le; lia | reflexivity]. }
  assert (Heof := file_read_eof e content (lastSize st)
                    (Z.to_nat (cs - lastSize st)) k Hread Hshort ltac:(lia)).
  rewrite <- Hsub in Heof.
  rewrite (readNewContent_read_fails e (lastSize st) cs content
             Hopen Hseek' ltac:(lia) Heof).
  rewrite send_trace_eq, Hsub. reflexivity.
Qed.

Lemma read_past_end_is_dropped_witness :
  Kafka.tick sample_producer "hdfslog" state_empty env_vanished =
  (Ok {| lastSize := 10; lastModTime := 5 |},
   [SysStat; Print (PrFileUpdated 8000 (10 - 0) 10);
    SysOpen; SysSeek 0; SysRead (10 - 0) None; Log WarnRead; SysClose]).
Proof.
  apply (read_past_end_is_dropped sample_producer "hdfslog" state_empty
           env_vanished 10 5 [] 4096).
  - reflexivity.
  - simpl. lia.
  - simpl. lia.
  - unfold int64_max. lia.
  - unfold maxAlloc. simpl. lia.
  - reflexivity.
  - reflexivity.
  - reflexivity.
  - simpl. lia.
Defined.

(** ** Start-up *)

Lemma Kafka_start_cases (s : StartEnv) :
  (exists msg, result (Kafka.start s) = Stop (Fatal msg)
               /\ ~ In SysStat (trace (Kafka.start s))
               /\ ((flag_file s =? "")%string = true
                   \/ start_abs s = None
                   \/ start_not_exist s = true
                   \/ (forall d, start_config s <> CfgDocument d)
                   \/ start_producer_ok s = false))
  \/ (exists c p st0 d absPath,
        result (Kafka.start s) = Ok (c, p, st0)
        /\ (flag_file s =? "")%string = false
        /\ start_abs s = Some absPath
        /\ start_not_exist s = false
        /\ start_config s = CfgDocument d
        /\ start_producer_ok s = true).
Proof.
  unfold Kafka.start.
  destruct (flag_file s =? "")%string eqn:Hflag;
    [left; eexists; repeat split; [intros [] | auto]|].
  destruct (start_abs s) as [absPath|] eqn:Habs;
    [|left; eexists; repeat split; [intros [] | auto]].
  destruct (start_not_exist s) eqn:Hexist;
    [left; eexists; repeat split; [intros [] | auto]|].
  destruct (start_config s) as [ | | |d] eqn:Hcfg;
    try (left; eexists; repeat split;
         [intros [] | right; right; right; left; discriminate]).
  rewrite bind_result, bind_trace, loadKafkaConfig_fields.
  unfold Kafka.createKafkaProducer.
  destruct (start_producer_ok s) eqn:Hprod.
  - right. rewrite initial_eq.
    eexists _, _, _, d, absPath. repeat split.
  - left. eexists. split; [reflexivity|]. split; [|auto 10].
    cbn. intros [H|[H|[]]]; discriminate H.
Qed.

(** X14. Start-up of the forwarding monitor succeeds exactly when the
    [-file] flag is not empty, the path resolves, the first [os.Stat] does
    not report a missing file, the configuration file opens, reads and
    parses, and the producer can be built; the plain monitor needs the first
    three.  A failed initial observation is not among the conditions. *)
Theorem start_succeeds_iff (s : StartEnv) :
  ((exists c p st0, result (Kafka.start s) = Ok (c, p, st0))
   <-> flag_file s <> ""%string
       /\ start_abs s <> None
       /\ start_not_exist s = false
       /\ (exists d, start_config s = CfgDocument d)
       /\ start_producer_ok s = true)
  /\ ((exists st0, result (Display.start s) = Ok st0)
      <-> flag_file s <> ""%string
          /\ start_abs s <> None
          /\ start_not_exist s = false).
Proof.
  split.
  - destruct (Kafka_start_cases s)
      as [(msg & Hres & _ & Hwhy)
         | (c & p & st0 & d & absPath & Hres & Hflag & Habs & Hex & Hcfg & Hprod)].
    + split.
      * intros (c & p & st0 & H). rewrite Hres in H. discriminate H.
      * intros (Hflag & Habs & Hex & [d Hcfg] & Hprod). exfalso.
        destruct Hwhy as [H|[H|[H|[H|H]]]].
        -- apply String.eqb_eq in H. contradiction.
        -- contradiction.
        -- congruence.
        -- exact (H d Hcfg).
        -- congruence.
    + split; [intros _ | intros _; eauto].
      apply String.eqb_neq in Hflag. rewrite Habs.
      repeat split; eauto. discriminate.
  - destruct (Display_start_eq s) as [[why Hstart]|[absPath Hstart]].
    + split; [intros [st0 H]; rewrite Hstart in H; discriminate H|].
      intros (Hflag & Habs & Hex). exfalso. revert Hstart.
      unfold Display.start. apply String.eqb_neq in Hflag. rewrite Hflag, Hex.
      destruct (start_abs s) as [absPath|]; [|contradiction].
      rewrite Display_initial_eq, initial_eq. cbn. discriminate.
    + split; [intros _ | intros _; rewrite Hstart; eexists; reflexivity].
      revert Hstart. unfold Display.start.
      destruct (flag_file s =? "")%string eqn:Hflag; [discriminate|].
      destruct (start_abs s); [|discriminate].
      destruct (start_not_exist s); [discriminate|].
      apply String.eqb_neq in Hflag. intros _. repeat split; auto. discriminate.
Qed.

(** X15. A start-up that fails is fatal and nothing follows it: [main] of
    the forwarding monitor stops with the same [log.Fatal], whatever ticks
    would have come, its events are those of the failed start-up, and the
    file has not been observed once. *)
Theorem failed_start_runs_no_tick (s : StartEnv) (es : list TickEnv)
  (why : Abort) :
  result (Kafka.start s) = Stop why ->
  (exists msg, why = Fatal msg)
  /\ result (Kafka.main s es) = Stop why
  /\ trace (Kafka.main s es) = trace (Kafka.start s)
  /\ ~ In SysStat (trace (Kafka.main s es)).
Proof.
  intros Hstop. unfold Kafka.main. rewrite bind_result, bind_trace, Hstop.
  destruct (Kafka_start_cases s)
    as [(msg & Hres & Hnostat & _) | (c & p & st0 & d & a & Hres & _)];
    rewrite Hres in Hstop; [|discriminate Hstop].
  injection Hstop as <-. eauto.
Qed.

Lemma failed_start_runs_no_tick_witness :
  (exists msg, Fatal "Failed to load Kafka configuration" = Fatal msg)
  /\ result (Kafka.main
               {| flag_file := "hdfs.log"; flag_interval := 5;
                  flag_config := "kafka_config.json";
                  start_abs := Some "/var/log/hdfs.log"%string;
                  start_not_exist := false;
                  start_config := CfgMalformed;
                  start_producer_ok := true;
                  start_observe := env_same |} [env_line])
     = Stop (Fatal "Failed to load Kafka configuration")
  /\ trace (Kafka.main
              {| flag_file := "hdfs.log"; flag_interval := 5;
                 flag_config := "kafka_config.json";
                 start_abs := Some "/var/log/hdfs.log"%string;
                 start_not_exist := false;
                 start_config := CfgMalformed;
                 start_producer_ok := true;
                 start_observe := env_same |} [env_line])
     = trace (Kafka.start
                {| flag_file := "hdfs.log"; flag_interval := 5;
                   flag_config := "kafka_config.json";
                   start_abs := Some "/var/log/hdfs.log"%string;
                   start_not_exist := false;
                   start_config := CfgMalformed;
                   start_producer_ok := true;
                   start_observe := env_same |})
  /\ ~ In SysStat
         (trace (Kafka.main
                   {| flag_file := "hdfs.log"; flag_interval := 5;
                      flag_config := "kafka_config.json";
                      start_abs := Some "/var/log/hdfs.log"%string;
                      start_not_exist := false;
                      start_config := CfgMalformed;
                      start_producer_ok := true;
                      start_observe := env_same |} [env_line])).
Proof.
  apply (failed_start_runs_no_tick _ [env_line]
           (Fatal "Failed to load Kafka configuration")).
  reflexivity.
Defined.

(** X16. No loaded configuration has a zero-valued tuning field: whatever
    the document sets, an explicit empty topic or client identity and an
    explicit 0 for the retries, the back-off or the timeout included, the
    configuration [loadKafkaConfig] returns has a non-empty topic and client
    identity and non-zero retries, back-off and timeout. *)
Theorem loaded_config_has_no_zero_field (cf : ConfigFile)
  (config : Kafka.KafkaConfig) :
  result (Kafka.loadKafkaConfig cf) = Ok (inl config) ->
  Kafka.Topic config <> ""%string
  /\ Kafka.ClientID config <> ""%string
  /\ Kafka.MaxRetry config <> 0
  /\ Kafka.RetryBackoff config <> 0
  /\ Kafka.TimeoutMS config <> 0.
Proof.
  intros Hload. destruct (loadKafkaConfig_accepts cf config Hload) as [d ->].
  rewrite loadKafkaConfig_fields in Hload. injection Hload as <-.
  destruct d as [b t c m r o]. cbn.
  repeat split.
  - destruct t as [t|]; [destruct (String.eqb_spec t "")|];
      congruence || discriminate.
  - destruct c as [c|]; [destruct (String.eqb_spec c "")|];
      congruence || discriminate.
  - destruct m as [m|]; [destruct (Z.eqb_spec m 0)|]; congruence || discriminate.
  - destruct r as [r|]; [destruct (Z.eqb_spec r 0)|]; congruence || discriminate.
  - destruct o as [o|]; [destruct (Z.eqb_spec o 0)|]; congruence || discriminate.
Qed.

Lemma loaded_config_has_no_zero_field_witness :
  Kafka.Topic sample_config <> ""%string
  /\ Kafka.ClientID sample_config <> ""%string
  /\ Kafka.MaxRetry sample_config <> 0
  /\ Kafka.RetryBackoff sample_config <> 0
  /\ Kafka.TimeoutMS sample_config <> 0.
Proof.
  apply (loaded_config_has_no_zero_field (CfgDocument zero_document)
           sample_config).
  reflexivity.
Defined.

(** X17. What the document sets is what is loaded: the broker address is
    taken as it is, and is empty when the document sets none (it has no
    default, and the configuration is still accepted); any other field the
    document sets to a value other than Go's zero value is loaded
    unchanged. *)
Theorem document_fields_are_loaded (d : Document) (config : Kafka.KafkaConfig) :
  result (Kafka.loadKafkaConfig (CfgDocument d)) = Ok (inl config) ->
  Kafka.Broker config
  = match doc_broker d with Some v => v | None => ""%string end
  /\ (forall v, doc_topic d = Some v -> v <> ""%string -> Kafka.Topic config = v)
  /\ (forall v, doc_client_id d = Some v -> v <> ""%string ->
                Kafka.ClientID config = v)
  /\ (forall v, doc_max_retry d = Some v -> v <> 0 -> Kafka.MaxRetry config = v)
  /\ (forall v, doc_retry_backoff_ms d = Some v -> v <> 0 ->
                Kafka.RetryBackoff config = v)
  /\ (forall v, doc_timeout_ms d = Some v -> v <> 0 ->
                Kafka.TimeoutMS config = v).
Proof.
  intros Hload.
  destruct (set_fields_are_kept d config Hload) as (_ & Hrest).
  split; [|exact Hrest].
  rewrite loadKafkaConfig_fields in Hload. injection Hload as <-. reflexivity.
Qed.

Lemma document_fields_are_loaded_witness :
  Kafka.Broker partial_config = ""%string
  /\ Kafka.Topic partial_config = "logs"%string
  /\ Kafka.MaxRetry partial_config = 7.
Proof.
  destruct (document_fields_are_loaded partial_document partial_config eq_refl)
    as (Hb & Ht & _ & Hm & _).
  split; [exact Hb|]. split.
  - apply Ht; [reflexivity | discriminate].
  - apply Hm; [reflexivity | discriminate].
Defined.

(** X18. The tuning fields of the loaded configuration reach the producer:
    after a successful start-up the producer's configuration maps
    ["client.id"], ["retries"], ["retry.backoff.ms"] and
    ["socket.timeout.ms"] to the client identity, the retries, the back-off
    and the timeout of the loaded configuration, and ["acks"] to ["1"]. *)
Theorem producer_gets_tuning_fields (s : StartEnv) (c : Kafka.KafkaConfig)
  (p : Kafka.Producer) (st0 : State) :
  result (Kafka.start s) = Ok (c, p, st0) ->
  Kafka.cm_get (Kafka.producer_config p) "client.id"
  = Some (Kafka.CVString (Kafka.ClientID c))
  /\ Kafka.cm_get (Kafka.producer_config p) "retries"
     = Some (Kafka.CVInt (Kafka.MaxRetry c))
  /\ Kafka.cm_get (Kafka.producer_config p) "retry.backoff.ms"
     = Some (Kafka.CVInt (Kafka.RetryBackoff c))
  /\ Kafka.cm_get (Kafka.producer_config p) "socket.timeout.ms"
     = Some (Kafka.CVInt (Kafka.TimeoutMS c))
  /\ Kafka.cm_get (Kafka.producer_config p) "acks" = Some (Kafka.CVString "1").
Proof.
  intros Hstart. apply Kafka_start_ok in Hstart as (_ & Hmake & _).
  unfold Kafka.createKafkaProducer in Hmake.
  destruct (start_producer_ok s); [|discriminate Hmake].
  injection Hmake as <-. repeat split.
Qed.

Lemma producer_gets_tuning_fields_witness :
  Kafka.cm_get (Kafka.producer_config started_producer) "client.id"
  = Some (Kafka.CVString (Kafka.ClientID sample_config))
  /\ Kafka.cm_get (Kafka.producer_config started_producer) "retries"
     = Some (Kafka.CVInt (Kafka.MaxRetry sample_config))
  /\ Kafka.cm_get (Kafka.producer_config started_producer) "retry.backoff.ms"
     = Some (Kafka.CVInt (Kafka.RetryBackoff sample_config))
  /\ Kafka.cm_get (Kafka.producer_config started_producer) "socket.timeout.ms"
     = Some (Kafka.CVInt (Kafka.TimeoutMS sample_config))
  /\ Kafka.cm_get (Kafka.producer_config started_producer) "acks"
     = Some (Kafka.CVString "1").
Proof.
  apply (producer_gets_tuning_fields sample_start sample_config
           started_producer state_9).
  reflexivity.
Defined.

(** ** The delivery report collector *)

Lemma handleDeliveryReports_app (before after : list KafkaEvent) :
  forallb printable before = true ->
  handleDeliveryReports (before ++ after)
  = (fst (handleDeliveryReports before) ++ fst (handleDeliveryReports after),
     snd (handleDeliveryReports after))
  /\ snd (handleDeliveryReports before) = ChannelDrained.
Proof.
  induction before as [|ev before IH]; intros Hok.
  - cbn. destruct (handleDeliveryReports after). auto.
  - cbn [forallb] in Hok. apply andb_prop in Hok as [Hev Hok].
    destruct (IH Hok) as [Happ Hend]. cbn [app handleDeliveryReports].
    destruct ev as [tp|]; [|auto].
    unfold printable in Hev.
    destruct (tp_error tp) as [err|]; [|destruct (tp_topic tp) as [topic|]];
      try discriminate Hev;
      rewrite Happ; destruct (handleDeliveryReports before) as [lines ending];
      cbn in *; auto.
Qed.

(** X19. The collector logs one line per delivery report, in order: over
    events whose reports each carry an error or name their topic, it drains
    the channel without a panic, skips events that are not messages, and
    logs as many lines as there are reports, a failure line for each report
    with an error and for no other. *)
Theorem collector_logs_every_report (deliveryChan : list KafkaEvent) :
  forallb printable deliveryChan = true ->
  snd (handleDeliveryReports deliveryChan) = ChannelDrained
  /\ length (fst (handleDeliveryReports deliveryChan))
     = length (filter is_message deliveryChan)
  /\ length (filter is_failure_line (fst (handleDeliveryReports deliveryChan)))
     = length (filter has_error deliveryChan).
Proof.
  induction deliveryChan as [|ev rest IH]; intros Hok; [repeat split|].
  cbn [forallb] in Hok. apply andb_prop in Hok as [Hev Hok].
  destruct (IH Hok) as (Hend & Hlen & Hfail).
  cbn [handleDeliveryReports]. destruct ev as [tp|]; [|auto].
  unfold printable in Hev. cbn [filter is_message has_error].
  destruct (handleDeliveryReports rest) as [lines ending].
  destruct (tp_error tp) as [err|]; [|destruct (tp_topic tp) as [topic|]];
    try discriminate Hev; cbn in *; auto.
Qed.

Lemma collector_logs_every_report_witness :
  snd (handleDeliveryReports [report_ok; EvOther; report_failed; report_ok])
  = ChannelDrained
  /\ length (fst (handleDeliveryReports
                    [report_ok; EvOther; report_failed; report_ok]))
     = length (filter is_message [report_ok; EvOther; report_failed; report_ok])
  /\ length (filter is_failure_line
               (fst (handleDeliveryReports
                       [report_ok; EvOther; report_failed; report_ok])))
     = length (filter has_error [report_ok; EvOther; report_failed; report_ok]).
Proof.
  apply (collector_logs_every_report
           [report_ok; EvOther; report_failed; report_ok]).
  reflexivity.
Defined.

(** X20. A report of a delivery without error that names no topic stops the
    collector: it dereferences the nil topic and panics, having logged the
    lines of the reports before and none for that report or any after. *)
Theorem nil_topic_stops_collector (before after : list KafkaEvent)
  (tp : TopicPartition) :
  forallb printable before = true ->
  tp_error tp = None ->
  tp_topic tp = None ->
  handleDeliveryReports (before ++ EvMessage tp :: after)
  = (fst (handleDeliveryReports before), NilTopicPanic).
Proof.
  intros Hok Herr Htopic.
  destruct (handleDeliveryReports_app before (EvMessage tp :: after) Hok)
    as [-> _].
  cbn [handleDeliveryReports]. rewrite Herr, Htopic. cbn [fst snd].
  rewrite app_nil_r. reflexivity.
Qed.

Lemma nil_topic_stops_collector_witness :
  handleDeliveryReports
    ([report_ok; report_failed] ++ report_without_topic :: [report_ok])
  = (fst (handleDeliveryReports [report_ok; report_failed]), NilTopicPanic).
Proof.
  apply (nil_topic_stops_collector [report_ok; report_failed] [report_ok]
           {| tp_topic := None; tp_partition := 0;
              tp_offset := 42; tp_error := None |});
    reflexivity.
Defined.

(** ** The sample-log generator *)





(** X22. An entry's level and component are always among the four listed:
    for every value of [$RANDOM] the index into the array is in range. *)
Theorem level_and_component_are_listed (random : Z) :
  Generator.is_random random = true ->
  In (Generator.level_of random) Generator.levels
  /\ In (Generator.component_of random) Generator.components.
Proof.
  unfold Generator.is_random. intros Hr.
  apply andb_prop in Hr as [Hr0 _]. apply Z.leb_le in Hr0.
  assert (Hidx := Z.rem_bound_pos random 4 Hr0 ltac:(lia)).
  unfold Generator.level_of, Generator.component_of.
  split; apply nth_In; cbn [length Generator.levels Generator.components]; lia.
Qed.

Lemma level_and_component_are_listed_witness :
  In (Generator.level_of 32767) Generator.levels
  /\ In (Generator.component_of 32767) Generator.components.
Proof.
  apply (level_and_component_are_listed 32767). reflexivity.
Defined.

(** ** More on messages *)

Lemma readNewContent_prints_what_it_returns (e : TickEnv) (oldSize newSize : Z)
  (nc : bytes) :
  result (Kafka.readNewContent e oldSize newSize) = Ok nc ->
  nonempty nc = true ->
  In (Print (PrNewContent nc)) (trace (Kafka.readNewContent e oldSize newSize)).
Proof.
  read_cases e oldSize newSize; intros H Hne; try discriminate H;
    injection H as <-; try discriminate Hne.
  cbn. auto 10.
Qed.

(** X23. What is forwarded is what is shown: the value of every message a
    tick hands to the producer is printed by that tick as the new content,
    and the plain monitor prints the same bytes on the same tick. *)
Theorem forwarded_value_is_printed (p : Kafka.Producer) (topic : string)
  (st : State) (e : TickEnv) (m : Message) :
  In (Produce m) (trace (Kafka.tick p topic st e)) ->
  In (Print (PrNewContent (msg_value m))) (trace (Kafka.tick p topic st e))
  /\ In (Print (PrNewContent (msg_value m))) (trace (Display.tick st e)).
Proof.
  intros Hin. apply in_produced in Hin.
  destruct (tick_produced p topic st e)
    as [Hnone|(nc & Hne & Hlt & Hread & Hone)];
    [rewrite Hnone in Hin; destruct Hin|].
  rewrite Hone in Hin. destruct Hin as [<-|[]]. cbn [message_of msg_value].
  assert (Hprint := readNewContent_prints_what_it_returns e _ _ nc Hread Hne).
  rewrite (Kafka_tick_growth_observed p topic st e Hlt),
          (Display_tick_growth_observed st e Hlt).
  destruct (Kafka.readNewContent e (lastSize st) (fst (observation e)))
    as [[nc'|why] t]; [|discriminate Hread].
  rewrite trace_pair in Hprint. rewrite !trace_pair.
  split; apply in_or_app; right; apply in_or_app; right;
    [apply in_or_app; left|]; exact Hprint.
Qed.

Lemma forwarded_value_is_printed_witness :
  In (Print (PrNewContent (msg_value (message_of env_line "hdfslog" sample_line))))
     (trace (Kafka.tick sample_producer "hdfslog" state_empty env_line))
  /\ In (Print (PrNewContent
                  (msg_value (message_of env_line "hdfslog" sample_line))))
        (trace (Display.tick state_empty env_line)).
Proof.
  apply (forwarded_value_is_printed sample_producer "hdfslog" state_empty
           env_line).
  vm_compute. repeat (first [left; reflexivity | right]).
Defined.

(** X24. A failed initial observation makes the whole file new: when the
    [os.Stat] of the initial observation fails, start-up still succeeds, with
    a recorded size of 0; the first tick that then finds the file, with some
    content (at most [maxAlloc] bytes, the most [make] gives a buffer for),
    and reads it in full hands the producer one message with the entire
    content of the file. *)
Theorem failed_initial_observation_forwards_whole_file (s : StartEnv)
  (c : Kafka.KafkaConfig) (p : Kafka.Producer) (st0 : State) (e : TickEnv)
  (content : bytes) :
  result (Kafka.start s) = Ok (c, p, st0) ->
  env_stat (start_observe s) = None ->
  sees_file content e = true ->
  nonempty content = true ->
  Z.of_nat (length content) <= maxAlloc ->
  st0 = {| lastSize := 0; lastModTime := zeroTime |}
  /\ map msg_value (produced (trace (Kafka.tick p (Kafka.Topic c) st0 e)))
     = [content].
Proof.
  intros Hstart Hfail Hsees Hne Hmax.
  apply Kafka_start_ok in Hstart as (_ & _ & ->).
  rewrite (observation_stat_fails _ Hfail). cbn [fst snd].
  split; [reflexivity|].
  assert (Hfits := maxAlloc_fits).
  destruct (append_only_tick p (Kafka.Topic c)
              {| lastSize := 0; lastModTime := zeroTime |} e [] content
              eq_refl ltac:(cbn [app]; lia) Hmax Hsees)
    as (st' & _ & _ & Hvalues).
  rewrite Hvalues. cbn [filter]. rewrite Hne. reflexivity.
Qed.

Lemma failed_initial_observation_forwards_whole_file_witness :
  {| lastSize := 0; lastModTime := zeroTime |}
  = {| lastSize := 0; lastModTime := zeroTime |}
  /\ map msg_value
       (produced (trace (Kafka.tick started_producer
                           (Kafka.Topic sample_config)
                           {| lastSize := 0; lastModTime := zeroTime |}
                           env_readable)))
     = [ten_digits].
Proof.
  apply (failed_initial_observation_forwards_whole_file
           {| flag_file := "hdfs.log"; flag_interval := 5;
              flag_config := "kafka_config.json";
              start_abs := Some "/var/log/hdfs.log"%string;
              start_not_exist := false;
              start_config := CfgDocument sample_document;
              start_producer_ok := true;
              start_observe := env_stat_fails |}
           sample_config started_producer
           {| lastSize := 0; lastModTime := zeroTime |} env_readable ten_digits).
  - reflexivity.
  - reflexivity.
  - reflexivity.
  - reflexivity.
  - unfold maxAlloc. simpl. lia.
Defined.

Lemma sprint_d_injective (a b : Z) : sprint_d a = sprint_d b -> a = b.
Proof.
  unfold sprint_d. intros H.
  assert (Hnot : forall z d, Z.to_int z = d ->
                   d <> Decimal.Pos Decimal.Nil /\ d <> Decimal.Neg Decimal.Nil).
  { intros z d Hd. split; intros ->;
      assert (Hz := f_equal Z.of_int Hd); rewrite DecimalZ.of_to in Hz;
      cbn in Hz; subst z; discriminate Hd. }
  destruct (Hnot a _ eq_refl) as [Ha1 Ha2].
  destruct (Hnot b _ eq_refl) as [Hb1 Hb2].
  apply (f_equal NilZero.int_of_string) in H.
  rewrite !NilZero.isi in H by assumption.
  injection H as H. apply DecimalZ.to_int_inj. exact H.
Qed.

(** X25. Messages built at different clock readings have different keys:
    for readings whose Unix time in nanoseconds is an [int64], two messages
    [sendToKafka] hands over have the same key only if the clock read the
    same nanosecond for both. *)
Theorem keys_differ_with_the_clock (e1 e2 : TickEnv) (p1 p2 : Kafka.Producer)
  (topic1 topic2 : string) (value1 value2 : bytes) (m1 m2 : Message) :
  in_int64 (env_now_key e1 - Kafka.unix_epoch) ->
  in_int64 (env_now_key e2 - Kafka.unix_epoch) ->
  In (Produce m1) (trace (Kafka.sendToKafka e1 p1 topic1 value1)) ->
  In (Produce m2) (trace (Kafka.sendToKafka e2 p2 topic2 value2)) ->
  msg_key m1 = msg_key m2 ->
  env_now_key e1 = env_now_key e2.
Proof.
  unfold in_int64, int64_min, int64_max. intros H1 H2 Hm1 Hm2 Hkey.
  assert (Hsent : forall e p topic value m,
             In (Produce m) (trace (Kafka.sendToKafka e p topic value)) ->
             msg_key m
             = ("hdfs-log-" ++ sprint_d (Kafka.UnixNano (env_now_key e)))%string).
  { intros e p topic value m. unfold Kafka.sendToKafka.
    destruct (env_produce_ok e); cbn; intros [H|H];
      try (injection H as <-; reflexivity);
      try destruct H as [H|[]]; try discriminate H; destruct H. }
  rewrite (Hsent _ _ _ _ _ Hm1), (Hsent _ _ _ _ _ Hm2) in Hkey.
  cbn in Hkey. injection Hkey as Hkey. apply sprint_d_injective in Hkey.
  unfold Kafka.UnixNano, wrap64 in Hkey.
  rewrite !Z.mod_small in Hkey by lia. lia.
Qed.

Lemma keys_differ_with_the_clock_witness :
  env_now_key env_clock_a = env_now_key env_clock_b.
Proof.
  apply (keys_differ_with_the_clock env_clock_a env_clock_b
           sample_producer sample_producer "hdfslog" "hdfslog"
           sample_line ten_digits
           (message_of env_clock_a "hdfslog" sample_line)
           (message_of env_clock_b "hdfslog" ten_digits)).
  - unfold in_int64, int64_min, int64_max. vm_compute. split; discriminate.
  - unfold in_int64, int64_min, int64_max. vm_compute. split; discriminate.
  - left. reflexivity.
  - left. reflexivity.
  - reflexivity.
Defined.

(** ** Reads never go back *)

Lemma seeks_app (t u : Trace) : seeks (t ++ u) = seeks t ++ seeks u.
Proof. unfold seeks. apply flat_map_app. Qed.

Lemma increasing_from_weaken (offsets : list Z) (lo lo' : Z) :
  lo <= lo' ->
  increasing_from lo' offsets = true -> increasing_from lo offsets = true.
Proof.
  destruct offsets as [|o rest]; [reflexivity|]. cbn. intros Hle H.
  apply andb_prop in H as [Ho Hrest]. apply Z.leb_le in Ho.
  rewrite Hrest, andb_true_r. apply Z.leb_le. lia.
Qed.

Lemma increasing_from_In (offsets : list Z) (lo o : Z) :
  increasing_from lo offsets = true -> In o offsets -> lo <= o.
Proof.
  revert lo. induction offsets as [|x rest IH]; intros lo Hinc Hin;
    [destruct Hin|].
  cbn in Hinc. apply andb_prop in Hinc as [Hlo Hrest]. apply Z.leb_le in Hlo.
  destruct Hin as [<-|Hin]; [exact Hlo|].
  specialize (IH (x + 1) Hrest Hin). lia.
Qed.

Lemma in_seeks (offset : Z) (t : Trace) :
  In (SysSeek offset) t -> In offset (seeks t).
Proof.
  intros Hin. unfold seeks. apply in_flat_map. exists (SysSeek offset).
  split; [exact Hin | left; reflexivity].
Qed.

Lemma readNewContent_seeks_shape (e : TickEnv) (oldSize newSize : Z) :
  seeks (trace (Kafka.readNewContent e oldSize newSize)) = []
  \/ seeks (trace (Kafka.readNewContent e oldSize newSize)) = [oldSize].
Proof. read_cases e oldSize newSize; auto. Qed.

Lemma quiet_seeks (e : TickEnv) (p : Kafka.Producer) (topic : string)
  (st : State) (nc : bytes) :
  seeks (trace (getFileInfo e)) = []
  /\ seeks (send_trace e p topic nc) = []
  /\ seeks (no_growth_trace st e) = [].
Proof.
  rewrite getFileInfo_eq, send_trace_eq. unfold trace, no_growth_trace.
  cbn [snd].
  destruct (env_stat e), (nonempty nc), (env_produce_ok e),
    (After (snd (observation e)) (lastModTime st)); repeat split.
Qed.

(** A tick seeks at most once, to the recorded size, and if it did and
    ended normally the recorded size has grown. *)
Lemma tick_seeks_shape (p : Kafka.Producer) (topic : string) (st : State)
  (e : TickEnv) :
  seeks (trace (Kafka.tick p topic st e)) = []
  \/ (seeks (trace (Kafka.tick p topic st e)) = [lastSize st]
      /\ forall st1, result (Kafka.tick p topic st e) = Ok st1 ->
                     lastSize st < lastSize st1).
Proof.
  destruct (quiet_seeks e p topic st []) as (Hs & _ & Hn).
  destruct (tick_cases p topic st e)
    as [(_ & -> & _) | [(Hlt & nc & t & Hread & -> & _)
                       | (_ & why & t & Hread & -> & _)]];
    rewrite ?trace_pair, ?result_pair.
  - left. exact Hn.
  - destruct (quiet_seeks e p topic st nc) as (_ & Hq & _).
    destruct (readNewContent_seeks_shape e (lastSize st) (fst (observation e)))
      as [Ht|Ht]; rewrite Hread, trace_pair in Ht;
      rewrite !seeks_app, Hs, Hq, Ht; cbn; [left; reflexivity | right].
    split; [reflexivity|]. intros st1 H. injection H as <-. exact Hlt.
  - destruct (readNewContent_seeks_shape e (lastSize st) (fst (observation e)))
      as [Ht|Ht]; rewrite Hread, trace_pair in Ht;
      rewrite !seeks_app, Hs, Ht; cbn; [left; reflexivity | right].
    split; [reflexivity|]. intros st1 H. discriminate H.
Qed.

Lemma run_seeks_increase (p : Kafka.Producer) (topic : string)
  (es : list TickEnv) (st : State) :
  increasing_from (lastSize st) (seeks (trace (Kafka.run p topic st es))) = true.
Proof.
  revert st. induction es as [|e es IH]; intros st; [reflexivity|].
  cbn [Kafka.run]. rewrite bind_trace.
  destruct (tick_seeks_shape p topic st e) as [Hnone|[Hone Hgrow]].
  - destruct (result (Kafka.tick p topic st e)) as [st1|why] eqn:Hres;
      [|rewrite Hnone; reflexivity].
    rewrite seeks_app, Hnone. cbn [app].
    apply (increasing_from_weaken _ _ (lastSize st1));
      [exact (tick_size_monotone p topic st st1 e Hres) | apply IH].
  - destruct (result (Kafka.tick p topic st e)) as [st1|why] eqn:Hres.
    + rewrite seeks_app, Hone. cbn [app increasing_from].
      rewrite Z.leb_refl. cbn [andb].
      apply (increasing_from_weaken _ _ (lastSize st1));
        [specialize (Hgrow st1 eq_refl); lia | apply IH].
    + rewrite Hone. cbn. rewrite Z.leb_refl. reflexivity.
Qed.

(** X11. Reads never go back: over any ticks from any state, whatever fails
    on the way, the offsets the forwarding monitor seeks to start at or
    after the recorded size and strictly increase, so no byte before the
    recorded size is read, and no offset is read from twice. *)
Theorem reads_never_go_back (p : Kafka.Producer) (topic : string)
  (es : list TickEnv) (st : State) (offset : Z) :
  increasing_from (lastSize st) (seeks (trace (Kafka.run p topic st es))) = true
  /\ (In (SysSeek offset) (trace (Kafka.run p topic st es)) ->
      lastSize st <= offset).
Proof.
  assert (Hinc := run_seeks_increase p topic es st).
  split; [exact Hinc|].
  intros Hin. apply in_seeks in Hin.
  exact (increasing_from_In _ _ _ Hinc Hin).
Qed.

(** X26. Content that was in the file before the monitor started is never
    read: after a successful start-up, every offset a run of the forwarding
    monitor seeks to is at or after the size the initial observation
    returned. *)
Theorem baseline_content_is_never_read (s : StartEnv) (es : list TickEnv)
  (c : Kafka.KafkaConfig) (p : Kafka.Producer) (st0 : State) (offset : Z) :
  result (Kafka.start s) = Ok (c, p, st0) ->
  In (SysSeek offset) (trace (Kafka.main s es)) ->
  fst (observation (start_observe s)) <= offset.
Proof.
  intros Hstart. unfold Kafka.main. rewrite bind_trace, Hstart.
  intros Hin. apply in_app_or in Hin as [Hin|Hin].
  - exfalso. assert (Hquiet := Kafka_start_delta_free s).
    assert (Hev : existsb delta_event (trace (Kafka.start s)) = true).
    { apply existsb_exists. exists (SysSeek offset). auto. }
    congruence.
  - apply Kafka_start_ok in Hstart as (_ & _ & ->).
    destruct (ticker_then (flag_interval s)
                (Kafka.run p (Kafka.Topic c)
                   {| lastSize := fst (observation (start_observe s));
                      lastModTime := snd (observation (start_observe s)) |}
                   es)) as [[_ Hgo]|[_ Hgo]];
      rewrite Hgo in Hin; [|destruct Hin].
    apply in_seeks in Hin.
    exact (increasing_from_In _ _ _
             (run_seeks_increase p (Kafka.Topic c) es _) Hin).
Qed.

Lemma baseline_content_is_never_read_witness :
  fst (observation (start_observe sample_start)) <= 9.
Proof.
  apply (baseline_content_is_never_read sample_start
           [env_same;
            {| env_stat := Some (74, 70); env_open := Some sample_line;
               env_seek_ok := true; env_read := ReadAtMost 4096;
               env_now := 5000; env_now_key := 5001; env_now_stamp := 5002;
               env_produce_ok := true |}]
           sample_config started_producer state_9 9).
  - reflexivity.
  - vm_compute. repeat (first [left; reflexivity | right]).
Defined.

Lemma reads_never_go_back_witness :
  increasing_from (lastSize state_empty)
    (seeks (trace (Kafka.run sample_producer "hdfslog" state_empty
                     [env_four; env_open_fails; env_readable; env_line])))
  = true
  /\ lastSize state_empty <= 10.
Proof.
  destruct (reads_never_go_back sample_producer "hdfslog"
              [env_four; env_open_fails; env_readable; env_line]
              state_empty 10) as [Hinc Hin].
  split; [exact Hinc|].
  apply Hin. vm_compute. repeat (first [left; reflexivity | right]).
Defined.

Lemma rejected_message_is_logged_witness :
  In (Log WarnSend)
     (trace (Kafka.tick sample_producer "hdfslog" state_empty env_rejected))
  /\ exists m,
       produced
         (trace (Kafka.tick sample_producer "hdfslog" state_empty env_rejected))
       = [m]
       /\ result (Kafka.tick sample_producer "hdfslog" state_empty env_rejected)
          = Ok {| lastSize := fst (observation env_rejected);
                  lastModTime := snd (observation env_rejected) |}.
Proof.
  destruct (rejected_message_is_logged sample_producer "hdfslog" state_empty
              env_rejected) as (Hiff & _ & Hdropped).
  assert (Hin : In (Log WarnSend)
                  (trace (Kafka.tick sample_producer "hdfslog" state_empty
                            env_rejected)))
    by (apply Hiff; split; [reflexivity | discriminate]).
  split; [exact Hin|].
  destruct (Hdropped Hin) as (m & t & _ & _ & Hone & _ & Hres).
  exists m. split; [exact Hone | exact Hres].
Defined.

Lemma start_succeeds_iff_witness :
  (exists c p st0, result (Kafka.start sample_start) = Ok (c, p, st0))
  /\ (exists st0, result (Display.start sample_start) = Ok st0).
Proof.
  destruct (start_succeeds_iff sample_start) as [[_ Hkafka] [_ Hdisplay]].
  split.
  - apply Hkafka. repeat split; try discriminate.
    exists sample_document. reflexivity.
  - apply Hdisplay. repeat split; discriminate.
Defined.

(** * Corrected statements *)

(** ** A tick whose stat fails *)

(** C5, as stated, fails.  The monitor starts on a 9-byte file whose
    modification time lies before Go's zero time and records it.  On the next
    tick [os.Stat] fails: [getFileInfo] returns [time.Time{}], which is after
    the recorded time, so the tick prints "modified but size unchanged" and
    replaces the recorded modification time.  The state is not retained. *)
Lemma failed_stat_moves_old_mtime_cex :
  result (Kafka.start start_ancient)
  = Ok (sample_config, started_producer, state_ancient)
  /\ env_stat env_stat_fails = None
  /\ Kafka.tick started_producer "hdfslog" state_ancient env_stat_fails
     = (Ok {| lastSize := 9; lastModTime := zeroTime |},
        [SysStat; Log WarnFileInfo; Print (PrModifiedUnchanged 2000 0)])
  /\ {| lastSize := 9; lastModTime := zeroTime |} <> state_ancient.
Proof.
  repeat split; try reflexivity. discriminate.
Qed.

(** C5, amended.  On a tick whose [os.Stat] fails, from a recorded size that
    is not negative, the forwarding monitor logs the warning, hands over no
    message, keeps the recorded size, ends the tick without a panic, and the
    loop goes on with the next tick, which observes the file again.  The
    recorded modification time is kept when it is not before Go's zero time,
    and the whole state with it; a recorded time before the zero time is
    replaced by the zero time, with a "modified but size unchanged" line
    that reports size 0. *)
Theorem failed_stat_keeps_size (p : Kafka.Producer) (topic : string)
  (st : State) (e : TickEnv) (rest : list TickEnv) :
  env_stat e = None ->
  0 <= lastSize st ->
  Kafka.tick p topic st e
  = (Ok (if lastModTime st <? zeroTime
         then {| lastSize := lastSize st; lastModTime := zeroTime |}
         else st),
     [SysStat; Log WarnFileInfo]
     ++ (if lastModTime st <? zeroTime
         then [Print (PrModifiedUnchanged (env_now e) 0)]
         else []))
  /\ produced (trace (Kafka.tick p topic st e)) = []
  /\ (zeroTime <= lastModTime st ->
      Kafka.tick p topic st e = (Ok st, [SysStat; Log WarnFileInfo]))
  /\ Kafka.run p topic st (e :: rest)
     = (result (Kafka.run p topic
                  (if lastModTime st <? zeroTime
                   then {| lastSize := lastSize st; lastModTime := zeroTime |}
                   else st) rest),
        trace (Kafka.tick p topic st e)
        ++ trace (Kafka.run p topic
                    (if lastModTime st <? zeroTime
                     then {| lastSize := lastSize st; lastModTime := zeroTime |}
                     else st) rest)).
Proof.
  intros Hfail Hsize.
  assert (Hobs := observation_stat_fails e Hfail).
  assert (Htick : Kafka.tick p topic st e
                  = (Ok (if lastModTime st <? zeroTime
                         then {| lastSize := lastSize st;
                                 lastModTime := zeroTime |}
                         else st),
                     [SysStat; Log WarnFileInfo]
                     ++ (if lastModTime st <? zeroTime
                         then [Print (PrModifiedUnchanged (env_now e) 0)]
                         else []))).
  { rewrite Kafka_tick_no_growth by (rewrite Hobs; cbn [fst]; lia).
    unfold no_growth_state, no_growth_trace, After.
    rewrite Hobs, Hfail. cbn [fst snd].
    destruct (lastModTime st <? zeroTime); reflexivity. }
  split; [exact Htick|]. split; [|split].
  - rewrite Htick, trace_pair.
    destruct (lastModTime st <? zeroTime); reflexivity.
  - intros Htime. rewrite Htick.
    assert (Hnot : (lastModTime st <? zeroTime) = false)
      by (apply Z.ltb_ge; exact Htime).
    rewrite Hnot. reflexivity.
  - cbn [Kafka.run]. rewrite Htick at 1. unfold bind.
    destruct (Kafka.run p topic _ rest) as [r t].
    rewrite Htick, trace_pair, result_pair, trace_pair. reflexivity.
Qed.

Lemma failed_stat_keeps_size_witness :
  Kafka.tick started_producer "hdfslog" state_touched env_stat_fails
  = (Ok state_touched, [SysStat; Log WarnFileInfo])
  /\ produced (trace (Kafka.tick started_producer "hdfslog" state_touched
                        env_stat_fails)) = []
  /\ result (Kafka.run started_producer "hdfslog" state_touched
               [env_stat_fails; env_same])
     = result (Kafka.run started_producer "hdfslog" state_touched [env_same]).
Proof.
  destruct (failed_stat_keeps_size started_producer "hdfslog" state_touched
              env_stat_fails [env_same])
    as (_ & Hnone & Hkept & Hrun).
  - reflexivity.
  - simpl. lia.
  - split; [apply Hkept; unfold zeroTime; simpl; lia|].
    split; [exact Hnone|].
    rewrite Hrun. reflexivity.
Defined.

(** ** A file that does not change after start-up *)






(** ** A read that falls short *)

(** C10. On a growth tick whose delta [currentSize - lastSize] is a length
    [make] accepts (at most [maxAlloc]), whose open and seek succeed and
    whose single [read] hands back [got] bytes, more than none and fewer than
    the [currentSize - lastSize] requested, the one message handed to the
    producer has a value of exactly [currentSize - lastSize] bytes: the
    [got] bytes of the file from offset [lastSize], then zero bytes, which
    [make] put in the buffer and no read replaced. *)
Theorem short_read_zero_padded (p : Kafka.Producer) (topic : string)
  (st : State) (e : TickEnv) (cs : Z) (mt : Time) (content : bytes)
  (k : positive) (got : nat) :
  env_stat e = Some (cs, mt) ->
  0 <= lastSize st -> lastSize st < cs -> cs <= int64_max ->
  cs - lastSize st <= maxAlloc ->
  env_open e = Some content ->
  env_seek_ok e = true ->
  env_read e = ReadAtMost k ->
  got = Nat.min (Pos.to_nat k)
          (length (skipn (Z.to_nat (lastSize st)) content)) ->
  (0 < got)%nat ->
  Z.of_nat got < cs - lastSize st ->
  reads (trace (Kafka.tick p topic st e))
  = [(cs - lastSize st, Some (Z.of_nat got))]
  /\ produced (trace (Kafka.tick p topic st e))
     = [ {| msg_topic := topic;
            msg_partition := PartitionAny;
            msg_value :=
              firstn got (skipn (Z.to_nat (lastSize st)) content)
              ++ repeat zero_byte (Z.to_nat (cs - lastSize st) - got);
            msg_key :=
              ("hdfs-log-" ++ sprint_d (Kafka.UnixNano (env_now_key e)))%string;
            msg_timestamp := env_now_stamp e |} ]
  /\ length (firstn got (skipn (Z.to_nat (lastSize st)) content)) = got
  /\ Z.of_nat
       (length (firstn got (skipn (Z.to_nat (lastSize st)) content)
                ++ repeat zero_byte (Z.to_nat (cs - lastSize st) - got)))
     = cs - lastSize st.
Proof.
  intros Hstat Hold Hlt Hmax Halloc Hopen Hseek Hread Hgot Hpos Hshort.
  rewrite (Kafka_tick_read p topic st e cs mt content k got
             Hstat Hold Hlt Hmax Halloc Hopen Hseek Hread ltac:(lia) Hpos).
  unfold trace. cbn [snd]. rewrite reads_app, produced_app.
  split; [|split; [|split]].
  - destruct (env_produce_ok e); reflexivity.
  - destruct (env_produce_ok e); reflexivity.
  - rewrite length_firstn. lia.
  - rewrite length_app, length_firstn, repeat_length. lia.
Qed.

Lemma short_read_zero_padded_witness :
  reads (trace (Kafka.tick sample_producer "hdfslog" state_empty env_short))
  = [(10, Some 4)]
  /\ produced (trace (Kafka.tick sample_producer "hdfslog" state_empty env_short))
     = [ {| msg_topic := "hdfslog";
            msg_partition := PartitionAny;
            msg_value :=
              list_byte_of_string "0123" ++ repeat zero_byte 6;
            msg_key :=
              ("hdfs-log-" ++ sprint_d (Kafka.UnixNano 6001))%string;
            msg_timestamp := 6002 |} ]
  /\ length (list_byte_of_string "0123") = 4%nat
  /\ Z.of_nat (length (list_byte_of_string "0123" ++ repeat zero_byte 6)) = 10.
Proof.
  apply (short_read_zero_padded sample_producer "hdfslog" state_empty env_short
           10 5 ten_digits 4 4%nat).
  - reflexivity.
  - simpl. lia.
  - simpl. lia.
  - unfold int64_max. lia.
  - unfold maxAlloc. simpl. lia.
  - reflexivity.
  - reflexivity.
  - reflexivity.
  - reflexivity.
  - lia.
  - simpl. lia.
Defined.

(** * The two run-time panics *)

Lemma readers_panic_in_make (e : TickEnv) (oldSize newSize : Z)
  (content : bytes) :
  0 <= oldSize -> newSize <= int64_max -> maxAlloc < newSize - oldSize ->
  env_open e = Some content ->
  env_seek_ok e = true ->
  Kafka.readNewContent e oldSize newSize
  = (Stop PanicMakeslice, [SysOpen; SysSeek oldSize; SysClose])
  /\ Display.displayNewContent e oldSize newSize
     = (Stop PanicMakeslice, [SysOpen; SysSeek oldSize; SysClose]).
Proof.
  intros Hold Hmax Hbig Hopen Hseek.
  assert (Hpos : 0 < maxAlloc) by (unfold maxAlloc; lia).
  assert (Hsub : sub64 newSize oldSize = newSize - oldSize)
    by (apply sub64_exact; lia).
  assert (Hok : seek_ok e oldSize = true).
  { unfold seek_ok. rewrite Hseek, andb_true_r. apply Z.leb_le. exact Hold. }
  unfold Kafka.readNewContent, Display.displayNewContent.
  rewrite Hopen, Hok, Hsub, make_bytes_panics by (right; exact Hbig).
  split; reflexivity.
Qed.

(** X27. A file that has grown by more than [make] accepts kills either
    monitor: on a tick that finds growth of more than [maxAlloc] bytes from
    a recorded size that is not negative, once the open and the seek have
    succeeded, [make] panics ("makeslice: len out of range") before any
    [read]; the deferred [Close] still runs, no message is handed over, the
    recorded size is never assigned, and the loop runs no further tick. *)
Theorem oversized_delta_panics (p : Kafka.Producer) (topic : string)
  (st : State) (e : TickEnv) (cs : Z) (mt : Time) (content : bytes)
  (rest : list TickEnv) :
  env_stat e = Some (cs, mt) ->
  0 <= lastSize st -> cs <= int64_max ->
  maxAlloc < cs - lastSize st ->
  env_open e = Some content ->
  env_seek_ok e = true ->
  Kafka.tick p topic st e
  = (Stop PanicMakeslice,
     [SysStat; Print (PrFileUpdated (env_now e) (cs - lastSize st) cs);
      SysOpen; SysSeek (lastSize st); SysClose])
  /\ Display.tick st e
     = (Stop PanicMakeslice,
        [SysStat; Print (PrFileUpdated (env_now e) (cs - lastSize st) cs);
         SysOpen; SysSeek (lastSize st); SysClose])
  /\ Kafka.run p topic st (e :: rest) = Kafka.tick p topic st e
  /\ Display.run st (e :: rest) = Display.tick st e.
Proof.
  intros Hstat Hold Hmax Hbig Hopen Hseek.
  assert (Hpos : 0 < maxAlloc) by (unfold maxAlloc; lia).
  assert (Hlt : lastSize st < cs) by lia.
  assert (Hsub : sub64 cs (lastSize st) = cs - lastSize st)
    by (apply sub64_exact; lia).
  destruct (readers_panic_in_make e (lastSize st) cs content
              Hold Hmax Hbig Hopen Hseek) as [Hk Hd].
  assert (Hkt : Kafka.tick p topic st e
                = (Stop PanicMakeslice,
                   [SysStat;
                    Print (PrFileUpdated (env_now e) (cs - lastSize st) cs);
                    SysOpen; SysSeek (lastSize st); SysClose])).
  { rewrite (Kafka_tick_growth p topic st e cs mt Hstat Hlt), Hk, Hsub.
    reflexivity. }
  assert (Hdt : Display.tick st e
                = (Stop PanicMakeslice,
                   [SysStat;
                    Print (PrFileUpdated (env_now e) (cs - lastSize st) cs);
                    SysOpen; SysSeek (lastSize st); SysClose])).
  { rewrite (Display_tick_growth st e cs mt Hstat Hlt), Hd, Hsub.
    reflexivity. }
  split; [exact Hkt|]. split; [exact Hdt|]. split.
  - cbn [Kafka.run]. rewrite Hkt. reflexivity.
  - cbn [Display.run]. rewrite Hdt. reflexivity.
Qed.

Lemma oversized_delta_panics_witness :
  Kafka.tick sample_producer "hdfslog" state_empty env_huge
  = (Stop PanicMakeslice,
     [SysStat; Print (PrFileUpdated 8000 (2 ^ 60 - 0) (2 ^ 60));
      SysOpen; SysSeek 0; SysClose])
  /\ Kafka.run sample_producer "hdfslog" state_empty [env_huge; env_same]
     = Kafka.tick sample_producer "hdfslog" state_empty env_huge.
Proof.
  destruct (oversized_delta_panics sample_producer "hdfslog" state_empty
              env_huge (2 ^ 60) 5 ten_digits [env_same])
    as (Htick & _ & Hrun & _).
  - reflexivity.
  - simpl. lia.
  - unfold int64_max. lia.
  - unfold maxAlloc. simpl. lia.
  - reflexivity.
  - reflexivity.
  - split; [exact Htick | exact Hrun].
Defined.

(** X28. An interval that is not positive kills either monitor before the
    first tick: when start-up has succeeded and [-interval] seconds, as an
    [int64] of nanoseconds, is zero or negative, [time.NewTicker] panics;
    the run consists of the events of start-up and nothing else, so the file
    is never observed again and nothing is forwarded. *)
Theorem non_positive_interval_panics (s : StartEnv) (es : list TickEnv) :
  wrap64 (flag_interval s * 1000000000) <= 0 ->
  (forall c p st0,
     result (Kafka.start s) = Ok (c, p, st0) ->
     Kafka.main s es = (Stop PanicNewTicker, trace (Kafka.start s))
     /\ produced (trace (Kafka.main s es)) = [])
  /\ (forall st0,
        result (Display.start s) = Ok st0 ->
        Display.main s es = (Stop PanicNewTicker, trace (Display.start s))).
Proof.
  intros Hneg. split.
  - intros c p st0 Hstart.
    assert (Hmain : Kafka.main s es
                    = (Stop PanicNewTicker, trace (Kafka.start s))).
    { unfold Kafka.main. destruct (Kafka.start s) as [r t] eqn:Hs.
      unfold result in Hstart. cbn [fst] in Hstart. subst r.
      unfold bind at 1.
      destruct (ticker_then (flag_interval s)
                  (Kafka.run p (Kafka.Topic c) st0 es))
        as [[Hpos _]|[_ Hgo]]; [lia|].
      rewrite Hgo. unfold trace. cbn [snd]. rewrite app_nil_r. reflexivity. }
    split; [exact Hmain|].
    rewrite Hmain, trace_pair. apply delta_free_produced.
    apply Kafka_start_delta_free.
  - intros st0 Hstart.
    unfold Display.main. destruct (Display.start s) as [r t] eqn:Hs.
    unfold result in Hstart. cbn [fst] in Hstart. subst r.
    unfold bind at 1.
    destruct (ticker_then (flag_interval s) (Display.run st0 es))
      as [[Hpos _]|[_ Hgo]]; [lia|].
    rewrite Hgo. unfold trace. cbn [snd]. rewrite app_nil_r. reflexivity.
Qed.

Lemma non_positive_interval_panics_witness :
  result (Kafka.main start_no_interval [env_same; env_readable])
  = Stop PanicNewTicker
  /\ produced (trace (Kafka.main start_no_interval [env_same; env_readable]))
     = []
  /\ result (Display.main start_no_interval [env_same; env_readable])
     = Stop PanicNewTicker.
Proof.
  destruct (non_positive_interval_panics start_no_interval
              [env_same; env_readable]) as [Hkafka Hdisplay].
  - vm_compute. discriminate.
  - destruct (Hkafka sample_config started_producer state_9 eq_refl)
      as [Hmain Hnone].
    split; [rewrite Hmain; reflexivity|]. split; [exact Hnone|].
    rewrite (Hdisplay state_9 eq_refl). reflexivity.
Defined.
